(** * zfs-snap.py: snapshot creation and pruning over a JSON-RPC connection

    A shallow embedding of [src/python/zfs-snap.py].  Values decoded from the
    wire are modelled by a small JSON type, the calls and the lines written to
    standard output are recorded in a trace, and [sys.exit] and uncaught
    exceptions are outcomes of the computation. *)

From Stdlib Require Import List ZArith Lia Bool Ascii String.
From Stdlib Require Import DecimalString Sorted Permutation.
Import ListNotations.

#[local] Set Warnings "-register-all".

Local Open Scope string_scope.
Local Open Scope list_scope.
Local Open Scope Z_scope.

(** ** Values and exceptions *)

(** What [json.loads] returns and what [json.dumps] accepts.  A [JObj] lists
    the items of the Python dict in insertion order; a key is looked up from
    the front.  Numbers are the integers: floating point values are outside
    this model. *)
Inductive json : Type :=
| JNull
| JBool (b : bool)
| JInt (z : Z)
| JStr (s : string)
| JArr (items : list json)
| JObj (items : list (string * json)).

(** The Python exceptions this program can raise. *)
Inductive exn : Type :=
| KeyError
| IndexError
| TypeError
| AttributeError
| ValueError
| ConnectionError.

(** A Python expression without side effects: a value or a raised exception. *)
Inductive result (A : Type) : Type :=
| Ok (a : A)
| Err (e : exn).
Arguments Ok {A} a.
Arguments Err {A} e.

Definition rbind {A B} (r : result A) (k : A -> result B) : result B :=
  match r with
  | Ok a => k a
  | Err e => Err e
  end.

Declare Scope result_scope.
Delimit Scope result_scope with result.
Notation "'let?' x ':=' r 'in' k" := (rbind r (fun x => k))
  (at level 10, x name, r at level 100, k at level 200) : result_scope.

(** ** Python primitives used by the script *)

Module Py.

(** The value stored under [key] in a dict, if any. *)
Fixpoint assoc (key : string) (items : list (string * json)) : option json :=
  match items with
  | [] => None
  | (k, v) :: rest => if String.eqb k key then Some v else assoc key rest
  end.

(** [key in d] for a dict [d]. *)
Definition has_key (key : string) (items : list (string * json)) : bool :=
  match assoc key items with
  | Some _ => true
  | None => false
  end.

(** [d.get(key, default)] for a dict [d]. *)
Definition get (key : string) (items : list (string * json)) (default : json)
  : json :=
  match assoc key items with
  | Some v => v
  | None => default
  end.

(** [v[key]] with a string key: only a dict can be subscripted that way. *)
Definition subscript (v : json) (key : string) : result json :=
  match v with
  | JObj items =>
      match assoc key items with
      | Some x => Ok x
      | None => Err KeyError
      end
  | _ => Err TypeError
  end.

(** [for x in v]: the sequence of values the loop variable takes (the items
    of a list, the keys of a dict, the characters of a string). *)
Definition iter (v : json) : result (list json) :=
  match v with
  | JArr items => Ok items
  | JObj items => Ok (map (fun kv => JStr (fst kv)) items)
  | JStr s => Ok (map (fun c => JStr (String c EmptyString)) (list_ascii_of_string s))
  | _ => Err TypeError
  end.

(** [s.split(sep)] for a separator of one character. *)
Fixpoint split (sep : ascii) (s : string) : list string :=
  match s with
  | EmptyString => [EmptyString]
  | String c rest =>
      if Ascii.eqb c sep then EmptyString :: split sep rest
      else match split sep rest with
           | [] => [String c EmptyString]
           | piece :: pieces => String c piece :: pieces
           end
  end.

(** [v.split("@")]: a method of [str] only. *)
Definition split_at (v : json) : result (list string) :=
  match v with
  | JStr s => Ok (split "@"%char s)
  | _ => Err AttributeError
  end.

(** [l[i]] for a list and a non-negative literal index. *)
Definition index {A} (l : list A) (i : nat) : result A :=
  match nth_error l i with
  | Some x => Ok x
  | None => Err IndexError
  end.

(** [s.startswith(p)]. *)
Definition startswith (s p : string) : bool := String.prefix p s.

(** [l[k:]] for any integer [k]: a negative [k] counts from the end, and both
    ends are clamped to the list. *)
Definition slice_from {A} (l : list A) (k : Z) : list A :=
  if k <? 0
  then skipn (Z.to_nat (Z.max 0 (Z.of_nat (List.length l) + k))) l
  else skipn (Z.to_nat k) l.

(** [l[0:k]] for any integer [k]. *)
Definition slice_to {A} (l : list A) (k : Z) : list A :=
  if k <? 0
  then firstn (Z.to_nat (Z.max 0 (Z.of_nat (List.length l) + k))) l
  else firstn (Z.to_nat k) l.

(** [str(k)] for an integer, as an f-string renders it. *)
Definition str_of_int (k : Z) : string := NilZero.string_of_int (Z.to_int k).

(** Truth value of an optional integer ([None] and [0] are false). *)
Definition truthy (v : option Z) : bool :=
  match v with
  | None => false
  | Some k => negb (k =? 0)
  end.

Section Sorting.
Context {A : Type} (key : A -> Z).

(** [l.sort(key=key, reverse=True)].  Python's sort is stable, and with
    [reverse=True] elements of equal key still keep their original order.
    That fixes the result, which is computed here by insertion from the
    right. *)
Fixpoint insert_desc (x : A) (l : list A) : list A :=
  match l with
  | [] => [x]
  | y :: rest =>
      if key y <=? key x then x :: y :: rest
      else y :: insert_desc x rest
  end.

Fixpoint sort_desc (l : list A) : list A :=
  match l with
  | [] => []
  | x :: rest => insert_desc x (sort_desc rest)
  end.
End Sorting.

End Py.

(** A reader of decimal integers (an optional sign, then at least one ASCII
    digit), used to run the script on concrete inputs.  On such strings it
    agrees with [int()]; [int()] accepts more (blanks around the number,
    underscores between digits, digits of other scripts), and the script
    below is therefore stated over any reader. *)
Module Decimal.

Definition digit (c : ascii) : option Z :=
  let n := Z.of_nat (nat_of_ascii c) in
  if (48 <=? n) && (n <=? 57) then Some (n - 48) else None.

Fixpoint digits (acc : Z) (s : string) : option Z :=
  match s with
  | EmptyString => Some acc
  | String c rest =>
      match digit c with
      | Some d => digits (10 * acc + d) rest
      | None => None
      end
  end.

Definition unsigned (s : string) : option Z :=
  match s with
  | EmptyString => None
  | _ => digits 0 s
  end.

Definition parse (s : string) : option Z :=
  match s with
  | String "-"%char rest => option_map Z.opp (unsigned rest)
  | String "+"%char rest => unsigned rest
  | _ => unsigned s
  end.

End Decimal.

(** ** The connection, the trace and the computation monad *)

(** What the process does that can be observed: a message handed to
    [ws.send] (after [json.dumps]) and a call of [print] with its arguments. *)
Inductive event : Type :=
| Send (msg : json)
| Print (args : list json).

Definition trace := list event.

(** The messages sent so far, oldest first. *)
Fixpoint sent (t : trace) : list json :=
  match t with
  | [] => []
  | Send msg :: rest => msg :: sent rest
  | Print _ :: rest => sent rest
  end.

(** A response of the wire protocol is a JSON object, given by its items.
    A reply that is not one, or that never comes, is outside this model. *)
Definition response := list (string * json).

(** The remote service behind an open connection: every call is sent and
    fully awaited before the next one, so [ws.recv()] yields the reply of the
    service to the newest message, which may depend on all the messages sent
    on the connection so far. *)
Definition service := list json -> response.

(** The hosts that can be reached: [None] where the connection fails. *)
Definition network := string -> option service.

(** How a computation ends: it returns, [sys.exit(code)] is called, or an
    exception is left uncaught. *)
Inductive outcome (A : Type) : Type :=
| Ret (a : A)
| Exit (code : Z)
| Raise (e : exn).
Arguments Ret {A} a.
Arguments Exit {A} code.
Arguments Raise {A} e.

Definition M (A : Type) : Type := trace -> outcome A * trace.

Definition ret {A} (a : A) : M A := fun t => (Ret a, t).

Definition bind {A B} (c : M A) (k : A -> M B) : M B :=
  fun t =>
    match c t with
    | (Ret a, t') => k a t'
    | (Exit code, t') => (Exit code, t')
    | (Raise e, t') => (Raise e, t')
    end.

Definition lift {A} (r : result A) : M A :=
  fun t =>
    match r with
    | Ok a => (Ret a, t)
    | Err e => (Raise e, t)
    end.

Definition print (args : list json) : M unit :=
  fun t => (Ret tt, t ++ [Print args]).

Definition sys_exit {A} (code : Z) : M A := fun t => (Exit code, t).

Declare Scope M_scope.
Delimit Scope M_scope with M.
Notation "x <- c ;; k" := (bind c (fun x => k))
  (at level 61, c at next level, right associativity) : M_scope.
Notation "c ;; k" := (bind c (fun _ => k))
  (at level 61, right associativity) : M_scope.

(** The exit status of the process for an outcome of [main]. *)
Definition exit_status {A} (o : outcome A) : Z :=
  match o with
  | Ret _ => 0
  | Exit code => code
  | Raise _ => 1
  end.

(** ** The script *)

Section Script.

(** [int(s)] for a [str]: [None] stands for [ValueError]. *)
Variable int_of_str : string -> option Z.

(** [int(v)] for a decoded value. *)
Definition py_int (v : json) : result Z :=
  match v with
  | JStr s =>
      match int_of_str s with
      | Some z => Ok z
      | None => Err ValueError
      end
  | JInt z => Ok z
  | JBool b => Ok (if b then 1 else 0)
  | _ => Err TypeError
  end.

Local Open Scope M_scope.

Definition ws_connect (net : network) (host : option string) : M service :=
  let host_text := match host with Some h => h | None => "None" end in
  match net ("wss://" ++ host_text ++ "/api/current")%string with
  | Some ws => ret ws
  | None => lift (Err ConnectionError)
  end.

(** The request envelope built by [ws_call]. *)
Definition envelope (method : string) (params : option (list json)) (req_id : Z)
  : json :=
  JObj [ ("jsonrpc", JStr "2.0");
         ("id", JInt req_id);
         ("msg", JStr "method");
         ("method", JStr method);
         ("params", JArr (match params with
                          | Some (p :: ps) => p :: ps
                          | _ => []
                          end)) ].

Definition ws_call (ws : service) (method : string)
    (params : option (list json)) (req_id : Z) : M response :=
  fun t =>
    let t' := t ++ [Send (envelope method params req_id)] in
    (Ret (ws (sent t')), t').

Definition json_of_opt (s : option string) : json :=
  match s with
  | Some x => JStr x
  | None => JNull
  end.

Definition login (ws : service) (token : option string) : M unit :=
  login <- ws_call ws "auth.login_with_api_key" (Some [json_of_opt token]) 1 ;;
  if Py.has_key "error" login then
    err <- lift (Py.subscript (JObj login) "error") ;;
    print [JStr "Login failed:"; err] ;;
    sys_exit 1
  else ret tt.

Definition create_snapshot (ws : service) (dataset : option string)
    (snapname : string) : M unit :=
  print [JStr ("Creating snapshot: " ++ snapname)%string] ;;
  resp <- ws_call ws "pool.snapshot.create"
            (Some [JObj [("dataset", json_of_opt dataset);
                         ("name", JStr snapname);
                         ("recursive", JBool true)]]) 2 ;;
  if Py.has_key "error" resp then
    err <- lift (Py.subscript (JObj resp) "error") ;;
    print [JStr "ERROR:"; err] ;;
    sys_exit 1
  else
    new_id <- lift (Py.subscript (Py.get "result" resp JNull) "id") ;;
    print [JStr "OK:"; new_id].

(** An element of [filtered]: [(created, shortname, snap["id"])]. *)
Definition entry : Type := Z * string * json.

Definition created (e : entry) : Z := fst (fst e).
Definition shortname (e : entry) : string := snd (fst e).
Definition snap_id (e : entry) : json := snd e.

(** [full.split("@")[1]] for [full = snap["name"]]. *)
Definition shortname_of (snap : json) : result string :=
  (let? full := Py.subscript snap "name" in
   let? pieces := Py.split_at full in
   Py.index pieces 1)%result.

(** [int(snap["properties"]["creation"]["rawvalue"])]. *)
Definition created_of (snap : json) : result Z :=
  (let? properties := Py.subscript snap "properties" in
   let? creation := Py.subscript properties "creation" in
   let? rawvalue := Py.subscript creation "rawvalue" in
   py_int rawvalue)%result.

(** The first loop of [prune_snapshots], started with the list [filtered]. *)
Fixpoint select (prefix : string) (snapshots : list json)
    (filtered : list entry) : result (list entry) :=
  match snapshots with
  | [] => Ok filtered
  | snap :: rest =>
      (let? short := shortname_of snap in
       if Py.startswith short prefix then
         let? time := created_of snap in
         let? ident := Py.subscript snap "id" in
         select prefix rest (filtered ++ [(time, short, ident)])
       else select prefix rest filtered)%result
  end.

(** The second loop of [prune_snapshots]. *)
Fixpoint delete_all (ws : service) (to_delete : list entry) (req_id : Z)
  : M unit :=
  match to_delete with
  | [] => ret tt
  | e :: rest =>
      print [JStr ("Deleting: " ++ shortname e)%string] ;;
      _ <- ws_call ws "pool.snapshot.delete" (Some [snap_id e]) req_id ;;
      delete_all ws rest (req_id + 1)
  end.

(** The parameters of the query call. *)
Definition query_params (dataset : option string) : list json :=
  [ JArr [JArr [JStr "dataset"; JStr "="; json_of_opt dataset]];
    JObj [("order_by", JArr [JStr "name"])] ].

Definition prune_snapshots (ws : service) (dataset : option string)
    (keep : Z) (prefix : string) : M unit :=
  print [JStr ("Pruning snapshots, keeping last " ++ Py.str_of_int keep
               ++ " with prefix '" ++ prefix ++ "'")%string] ;;
  resp <- ws_call ws "pool.snapshot.query" (Some (query_params dataset)) 3 ;;
  let snapshots := Py.get "result" resp (JArr []) in
  snaps <- lift (Py.iter snapshots) ;;
  filtered <- lift (select prefix snaps []) ;;
  let filtered := Py.sort_desc created filtered in
  let to_delete := Py.slice_from filtered keep in
  delete_all ws to_delete 10 ;;
  print [JStr "Prune completed."].

(** The namespace returned by [parse_args]. *)
Record args : Type := {
  snapname : string;
  dataset : option string;
  host : option string;
  token : option string;
  prune : option Z;
  prefix : string
}.

Definition main (net : network) (a : args) : M unit :=
  ws <- ws_connect net (host a) ;;
  login ws (token a) ;;
  create_snapshot ws (dataset a) (snapname a) ;;
  if Py.truthy (prune a) then
    match prune a with
    | Some keep => prune_snapshots ws (dataset a) keep (prefix a)
    | None => ret tt
    end
  else ret tt.

End Script.

Arguments created_of int_of_str snap : simpl never.

(** ** Notions in which the properties are stated *)

(** The method a sent message asks for. *)
Definition method_of (msg : json) : option string :=
  match msg with
  | JObj items =>
      match Py.assoc "method" items with
      | Some (JStr m) => Some m
      | _ => None
      end
  | _ => None
  end.

Definition is_call (method : string) (msg : json) : bool :=
  match method_of msg with
  | Some m => String.eqb m method
  | None => false
  end.

(** No message of the pruning pass (query or delete) is among [msgs]. *)
Definition no_prune_calls (msgs : list json) : Prop :=
  Forall (fun msg => is_call "pool.snapshot.query" msg = false /\
                     is_call "pool.snapshot.delete" msg = false) msgs.

(** The address [ws_connect] opens, and the first two calls of [main]. *)
Definition url_of (host : option string) : string :=
  ("wss://" ++ match host with Some h => h | None => "None" end
   ++ "/api/current")%string.

Definition login_call (token : option string) : json :=
  envelope "auth.login_with_api_key" (Some [json_of_opt token]) 1.

Definition create_call (dataset : option string) (snapname : string) : json :=
  envelope "pool.snapshot.create"
    (Some [JObj [("dataset", json_of_opt dataset);
                 ("name", JStr snapname);
                 ("recursive", JBool true)]]) 2.

(** What [prune_snapshots] does before it reads the reply to its query. *)
Definition prune_header (dataset : option string) (keep : Z) (prefix : string)
  : trace :=
  [ Print [JStr ("Pruning snapshots, keeping last " ++ Py.str_of_int keep
                 ++ " with prefix '" ++ prefix ++ "'")%string];
    Send (envelope "pool.snapshot.query" (Some (query_params dataset)) 3) ].

(** The reply to the query of a pruning pass started after trace [t], and the
    value the pass iterates over. *)
Definition query_reply (ws : service) (dataset : option string) (keep : Z)
    (prefix : string) (t : trace) : response :=
  ws (sent (t ++ prune_header dataset keep prefix)).

Definition query_result (ws : service) (dataset : option string) (keep : Z)
    (prefix : string) (t : trace) : json :=
  Py.get "result" (query_reply ws dataset keep prefix t) (JArr []).

(** The delete calls for the entries of [l], numbered from [req_id]. *)
Fixpoint delete_calls (l : list entry) (req_id : Z) : list json :=
  match l with
  | [] => []
  | e :: rest =>
      envelope "pool.snapshot.delete" (Some [snap_id e]) req_id
      :: delete_calls rest (req_id + 1)
  end.

(** The same calls, each after the line that announces it. *)
Fixpoint delete_events (l : list entry) (req_id : Z) : trace :=
  match l with
  | [] => []
  | e :: rest =>
      Print [JStr ("Deleting: " ++ shortname e)%string]
      :: Send (envelope "pool.snapshot.delete" (Some [snap_id e]) req_id)
      :: delete_events rest (req_id + 1)
  end.

(** The partition of the specification, on the sorted list: the script only
    computes [doomed] (its [to_delete = filtered[keep:]]); [retained] is the
    specification's [records[0:keep]]. *)
Definition doomed (sorted : list entry) (keep : Z) : list entry :=
  Py.slice_from sorted keep.

Definition retained (sorted : list entry) (keep : Z) : list entry :=
  Py.slice_to sorted keep.

(** A record whose shortname starts with the prefix. *)
Definition matches (prefix : string) (snap : json) : bool :=
  match shortname_of snap with
  | Ok short => Py.startswith short prefix
  | Err _ => false
  end.

(** Entry [e] is what the first loop appends for record [snap]. *)
Definition made_from (int_of_str : string -> option Z) (prefix : string)
    (snap : json) (e : entry) : Prop :=
  shortname_of snap = Ok (shortname e) /\
  Py.startswith (shortname e) prefix = true /\
  created_of int_of_str snap = Ok (created e) /\
  Py.subscript snap "id" = Ok (snap_id e).

(** The order of a list sorted with [reverse=True]: no later element has a
    greater key. *)
Definition descending {A} (key : A -> Z) (a b : A) : Prop := key b <= key a.

(** Newest first. *)
Definition newer_or_equal : entry -> entry -> Prop := descending created.

(** Cutting a string at a character, stated without [split]. *)
Module Text.

Fixpoint contains (c : ascii) (s : string) : bool :=
  match s with
  | EmptyString => false
  | String x rest => if Ascii.eqb x c then true else contains c rest
  end.

(** What follows the first [c], if there is one. *)
Fixpoint after_first (c : ascii) (s : string) : option string :=
  match s with
  | EmptyString => None
  | String x rest => if Ascii.eqb x c then Some rest else after_first c rest
  end.

(** What precedes the first [c]; the whole string if there is none. *)
Fixpoint before_first (c : ascii) (s : string) : string :=
  match s with
  | EmptyString => EmptyString
  | String x rest =>
      if Ascii.eqb x c then EmptyString else String x (before_first c rest)
  end.

End Text.

(** The shortname as the specification words it: the substring of the full
    name after the first [@]. *)
Definition spec_shortname (full : string) : option string :=
  Text.after_first "@" full.

(** ** A run of the scenario of the specification *)

Module Scenario.

Definition tank : option string := Some "tank/data".

(** A snapshot record as the query call returns it. *)
Definition record (short rawvalue : string) : json :=
  JObj [ ("id", JStr ("tank/data@" ++ short)%string);
         ("name", JStr ("tank/data@" ++ short)%string);
         ("properties", JObj [("creation", JObj [("rawvalue", JStr rawvalue)])]) ].

Definition records : list json :=
  [ record "backup-A" "100"; record "backup-B" "300";
    record "other-C" "500"; record "backup-D" "200" ].

(** A service that holds [held], accepts every login and creation, and
    rejects every deletion. *)
Definition nas (held : list json) : service :=
  fun msgs =>
    match method_of (last msgs JNull) with
    | Some "pool.snapshot.query" => [("result", JArr held)]
    | Some "pool.snapshot.create" => [("result", JObj [("id", JStr "tank/data@new")])]
    | Some "pool.snapshot.delete" => [("error", JStr "busy")]
    | _ => [("result", JBool true)]
    end.

(** A service that rejects the creation call. *)
Definition full_nas : service :=
  fun msgs =>
    match method_of (last msgs JNull) with
    | Some "pool.snapshot.create" => [("error", JStr "out of space")]
    | _ => [("result", JBool true)]
    end.

Definition entry_of (short : string) (time : Z) : entry :=
  (time, short, JStr ("tank/data@" ++ short)%string).

Definition A : entry := entry_of "backup-A" 100.
Definition B : entry := entry_of "backup-B" 300.
Definition D : entry := entry_of "backup-D" 200.

Definition query_call : json :=
  envelope "pool.snapshot.query" (Some (query_params tank)) 3.

Definition delete_call (short : string) (req_id : Z) : json :=
  envelope "pool.snapshot.delete" (Some [JStr ("tank/data@" ++ short)%string])
    req_id.

(** A network with one host, and a command line for it. *)
Definition lan (ws : service) : network :=
  fun url => if String.eqb url "wss://nas.local/api/current" then Some ws
             else None.

Definition cli (count : option Z) : args :=
  {| snapname := "backup-E"; dataset := tank; host := Some "nas.local";
     token := Some "secret"; prune := count; prefix := "backup-" |}.

(** A record whose name has two [@], and one whose name has none. *)
Definition two_ats : list (string * json) :=
  [ ("id", JStr "tank@backup-1@x"); ("name", JStr "tank@backup-1@x");
    ("properties", JObj [("creation", JObj [("rawvalue", JStr "400")])]) ].

Definition no_at : json :=
  JObj [ ("id", JStr "tank-backup-9"); ("name", JStr "tank-backup-9");
         ("properties", JObj [("creation", JObj [("rawvalue", JStr "50")])]) ].

End Scenario.

(** The script as the interpreter runs it: [main()] first calls
    [parse_args()], where [argparse] either returns the namespace or ends the
    process itself (it calls [sys.exit], with its own status, for a command
    line it rejects and for [--help]).  What [argparse] makes of a command
    line is its own business; the outcome of [parse_args()] is taken as
    given. *)
Definition script (int_of_str : string -> option Z)
    (parse_args : outcome args) (net : network) : M unit :=
  fun t =>
    match parse_args with
    | Ret a => main int_of_str net a t
    | Exit code => (Exit code, t)
    | Raise e => (Raise e, t)
    end.

(** What one round of the first loop does with a record: it raises, skips
    the record, or appends an entry. *)
Definition picked (int_of_str : string -> option Z) (prefix : string)
    (snap : json) : result (option entry) :=
  (let? short := shortname_of snap in
   if Py.startswith short prefix then
     let? time := created_of int_of_str snap in
     let? ident := Py.subscript snap "id" in
     Ok (Some (time, short, ident))
   else Ok None)%result.

(** The request id a sent message carries. *)
Definition request_id (msg : json) : option Z :=
  match Py.subscript msg "id" with
  | Ok (JInt z) => Some z
  | _ => None
  end.

(** Services for the runs that show the edge behaviour of the script. *)
Module Cases.

(** A service that answers each method with a fixed reply. *)
Definition scripted (on_login on_create on_query on_delete : response)
  : service :=
  fun msgs =>
    match method_of (last msgs JNull) with
    | Some "auth.login_with_api_key" => on_login
    | Some "pool.snapshot.create" => on_create
    | Some "pool.snapshot.query" => on_query
    | _ => on_delete
    end.

Definition accepted : response := [("result", JBool true)].

Definition created_reply : response :=
  [("result", JObj [("id", JStr "tank/data@backup-E")])].

(** The login is refused. *)
Definition locked : service :=
  scripted [("error", JStr "bad key")] created_reply
    [("result", JArr Scenario.records)] accepted.

(** The creation is answered without [error] and without [result]. *)
Definition mute : service :=
  scripted accepted [] [("result", JArr Scenario.records)] accepted.

(** The query is answered with an error and no [result]. *)
Definition blind : service :=
  scripted accepted created_reply [("error", JStr "no such dataset")] accepted.

(** Everything is accepted and the four records of the scenario are held. *)
Definition healthy : service :=
  scripted accepted created_reply [("result", JArr Scenario.records)] accepted.

(** A record of another prefix that has nothing but its name. *)
Definition bare : json := JObj [("name", JStr "tank/data@manual-1")].

(** A record with the prefix whose creation time is not a number. *)
Definition undated : json := Scenario.record "backup-Z" "yesterday".

End Cases.

(** ** Slices *)

Section Slices.
Context {A : Type}.
Implicit Types (l : list A) (k : Z).

Lemma slice_split l k : Py.slice_to l k ++ Py.slice_from l k = l.
Proof.
  unfold Py.slice_to, Py.slice_from.
  destruct (k <? 0); apply firstn_skipn.
Qed.

Lemma slice_lengths l k :
  (List.length (Py.slice_to l k) + List.length (Py.slice_from l k))%nat
  = List.length l.
Proof. rewrite <- length_app, slice_split; reflexivity. Qed.

Lemma slice_from_zero l : Py.slice_from l 0 = l.
Proof. reflexivity. Qed.

Lemma slice_to_zero l : Py.slice_to l 0 = [].
Proof. reflexivity. Qed.

Lemma slice_from_beyond l k :
  Z.of_nat (List.length l) <= k -> Py.slice_from l k = [].
Proof.
  intros Hk. unfold Py.slice_from.
  destruct (Z.ltb_spec k 0) as [Hneg | _]; [lia |].
  apply skipn_all2. lia.
Qed.

Lemma slice_to_length_nonneg l k :
  0 <= k -> Z.of_nat (List.length (Py.slice_to l k))
            = Z.min k (Z.of_nat (List.length l)).
Proof.
  intros Hk. unfold Py.slice_to.
  destruct (Z.ltb_spec k 0) as [Hneg | _]; [lia |].
  rewrite length_firstn. lia.
Qed.

Lemma slice_to_length_neg l k :
  k < 0 -> Z.of_nat (List.length (Py.slice_to l k))
           = Z.max 0 (Z.of_nat (List.length l) + k).
Proof.
  intros Hk. unfold Py.slice_to.
  destruct (Z.ltb_spec k 0) as [_ | Hpos]; [| lia].
  rewrite length_firstn. lia.
Qed.
End Slices.

(** ** The descending stable sort *)

Section SortFacts.
Context {A : Type} (key : A -> Z).
Implicit Types (x : A) (l : list A).

Lemma insert_desc_perm x l : Permutation (x :: l) (Py.insert_desc key x l).
Proof.
  induction l as [| y l IH]; simpl; [reflexivity |].
  destruct (key y <=? key x); [reflexivity |].
  rewrite perm_swap. apply perm_skip, IH.
Qed.

Lemma sort_desc_perm l : Permutation l (Py.sort_desc key l).
Proof.
  induction l as [| x l IH]; simpl; [reflexivity |].
  rewrite <- insert_desc_perm. apply perm_skip, IH.
Qed.

Lemma insert_desc_sorted x l :
  StronglySorted (descending key) l -> StronglySorted (descending key) (Py.insert_desc key x l).
Proof.
  induction l as [| y l IH]; intros Hs; simpl.
  - constructor; constructor.
  - inversion Hs as [| ? ? Hl Hy]; subst.
    destruct (Z.leb_spec (key y) (key x)) as [Hle | Hgt].
    + constructor; [exact Hs |].
      constructor; [exact Hle |].
      eapply Forall_impl; [| exact Hy].
      unfold descending; intros; lia.
    + constructor; [apply IH, Hl |].
      eapply Permutation_Forall; [apply insert_desc_perm |].
      constructor; [unfold descending; lia | exact Hy].
Qed.

Lemma sort_desc_sorted l : StronglySorted (descending key) (Py.sort_desc key l).
Proof.
  induction l as [| x l IH]; simpl; [constructor |].
  apply insert_desc_sorted, IH.
Qed.

Lemma insert_desc_head x l :
  Forall (fun y => key y <= key x) l -> Py.insert_desc key x l = x :: l.
Proof.
  destruct l as [| y l]; intros Hall; simpl; [reflexivity |].
  inversion Hall; subst.
  destruct (Z.leb_spec (key y) (key x)); [reflexivity | lia].
Qed.

Lemma sort_desc_fixed l :
  StronglySorted (descending key) l -> Py.sort_desc key l = l.
Proof.
  induction 1 as [| x l Hl IH Hx]; simpl; [reflexivity |].
  rewrite IH. apply insert_desc_head, Hx.
Qed.

Lemma sort_desc_idempotent l :
  Py.sort_desc key (Py.sort_desc key l) = Py.sort_desc key l.
Proof. apply sort_desc_fixed, sort_desc_sorted. Qed.

(** Stability: the entries of any one key keep the order of the input. *)
Lemma insert_desc_filter x l (k : Z) :
  filter (fun y => key y =? k) (Py.insert_desc key x l)
  = filter (fun y => key y =? k) (x :: l).
Proof.
  induction l as [| y l IH]; [reflexivity |].
  simpl Py.insert_desc.
  destruct (Z.leb_spec (key y) (key x)) as [Hle | Hgt]; [reflexivity |].
  simpl in *. rewrite IH.
  destruct (Z.eqb_spec (key y) k), (Z.eqb_spec (key x) k);
    try reflexivity; lia.
Qed.

Lemma sort_desc_stable l (k : Z) :
  filter (fun y => key y =? k) (Py.sort_desc key l)
  = filter (fun y => key y =? k) l.
Proof.
  induction l as [| x l IH]; [reflexivity |].
  simpl Py.sort_desc. rewrite insert_desc_filter.
  simpl. rewrite IH. reflexivity.
Qed.
End SortFacts.

(** ** Splitting a name at [@] *)

Lemma split_cut (c : ascii) (s : string) :
  Py.split c s
  = Text.before_first c s
    :: match Text.after_first c s with
       | Some rest => Py.split c rest
       | None => []
       end.
Proof.
  induction s as [| x s IH]; simpl; [reflexivity |].
  destruct (Ascii.eqb x c); [reflexivity |].
  rewrite IH. reflexivity.
Qed.

Lemma after_first_none (c : ascii) (s : string) :
  Text.contains c s = false -> Text.after_first c s = None.
Proof.
  induction s as [| x s IH]; simpl; [reflexivity |].
  destruct (Ascii.eqb x c); [discriminate | exact IH].
Qed.

Lemma before_first_all (c : ascii) (s : string) :
  Text.contains c s = false -> Text.before_first c s = s.
Proof.
  induction s as [| x s IH]; simpl; [reflexivity |].
  destruct (Ascii.eqb x c); [discriminate |].
  intros H. rewrite IH by exact H. reflexivity.
Qed.

(** [after_first] cuts at the first occurrence: what precedes the cut has
    no [c]. *)
Lemma after_first_cut (c : ascii) (s rest : string) :
  Text.after_first c s = Some rest ->
  s = (Text.before_first c s ++ String c rest)%string /\
  Text.contains c (Text.before_first c s) = false.
Proof.
  revert rest. induction s as [| x s IH]; simpl; intros rest H; [discriminate |].
  destruct (Ascii.eqb_spec x c) as [-> | Hne].
  - injection H as ->. split; reflexivity.
  - destruct (IH rest H) as [Hs Hc]. simpl.
    destruct (Ascii.eqb_spec x c) as [-> | _]; [congruence |].
    split; [f_equal; exact Hs | exact Hc].
Qed.

Lemma split_second (c : ascii) (s : string) :
  nth_error (Py.split c s) 1
  = option_map (Text.before_first c) (Text.after_first c s).
Proof.
  rewrite split_cut. simpl.
  destruct (Text.after_first c s) as [rest |]; [| reflexivity].
  rewrite split_cut. reflexivity.
Qed.

Lemma shortname_of_name (items : list (string * json)) (full : string) :
  Py.assoc "name" items = Some (JStr full) ->
  shortname_of (JObj items)
  = match Text.after_first "@" full with
    | Some rest => Ok (Text.before_first "@" rest)
    | None => Err IndexError
    end.
Proof.
  intros Hname. unfold shortname_of, Py.subscript. rewrite Hname. simpl.
  unfold Py.index. rewrite split_second.
  destruct (Text.after_first "@" full); reflexivity.
Qed.

(** ** Runs of the computations *)

Lemma sent_app (t u : trace) : sent (t ++ u) = sent t ++ sent u.
Proof.
  induction t as [| [msg | args] t IH]; simpl; [reflexivity | |];
    rewrite IH; reflexivity.
Qed.

Lemma sent_delete_events (l : list entry) (req_id : Z) :
  sent (delete_events l req_id) = delete_calls l req_id.
Proof.
  revert req_id. induction l as [| e l IH]; intros req_id; simpl;
    [reflexivity | rewrite IH; reflexivity].
Qed.

Lemma delete_calls_length (l : list entry) (req_id : Z) :
  List.length (delete_calls l req_id) = List.length l.
Proof.
  revert req_id. induction l as [| e l IH]; intros req_id; simpl;
    [reflexivity | rewrite IH; reflexivity].
Qed.

(** The [i]-th delete call carries the identifier of the [i]-th entry and the
    request id [req_id + i]. *)
Lemma delete_calls_nth (l : list entry) (req_id : Z) (i : nat) :
  nth_error (delete_calls l req_id) i
  = option_map
      (fun e => envelope "pool.snapshot.delete" (Some [snap_id e])
                  (req_id + Z.of_nat i))
      (nth_error l i).
Proof.
  revert req_id i. induction l as [| e l IH]; intros req_id [| i]; simpl;
    try reflexivity.
  - rewrite Z.add_0_r. reflexivity.
  - rewrite IH. replace (req_id + 1 + Z.of_nat i) with (req_id + Z.pos (Pos.of_succ_nat i)) by lia.
    reflexivity.
Qed.

Lemma delete_calls_in (l : list entry) (req_id : Z) (msg : json) :
  In msg (delete_calls l req_id) ->
  exists e n, In e l /\
              msg = envelope "pool.snapshot.delete" (Some [snap_id e]) n.
Proof.
  revert req_id. induction l as [| e l IH]; intros req_id; simpl; [tauto |].
  intros [<- | Hin].
  - exists e, req_id. split; [left |]; reflexivity.
  - destruct (IH _ Hin) as (e' & n & He' & ->).
    exists e', n. split; [right; exact He' | reflexivity].
Qed.

Lemma delete_all_run (ws : service) (l : list entry) (req_id : Z) (t : trace) :
  delete_all ws l req_id t = (Ret tt, t ++ delete_events l req_id).
Proof.
  revert req_id t. induction l as [| e l IH]; intros req_id t; simpl.
  - unfold ret. rewrite app_nil_r. reflexivity.
  - unfold bind, print, ws_call. rewrite IH.
    rewrite <- !app_assoc. reflexivity.
Qed.

(** A pruning pass, in full: it stops at the first exception of the first
    loop, and otherwise sends the delete calls of the doomed entries and
    returns, without looking at a reply to any of them. *)
Lemma prune_snapshots_run (int_of_str : string -> option Z) (ws : service)
    (dataset : option string) (keep : Z) (prefix : string) (t : trace) :
  prune_snapshots int_of_str ws dataset keep prefix t
  = let t1 := t ++ prune_header dataset keep prefix in
    match Py.iter (query_result ws dataset keep prefix t) with
    | Err e => (Raise e, t1)
    | Ok snaps =>
        match select int_of_str prefix snaps [] with
        | Err e => (Raise e, t1)
        | Ok filtered =>
            (Ret tt,
             t1 ++ delete_events (doomed (Py.sort_desc created filtered) keep) 10
                ++ [Print [JStr "Prune completed."]])
        end
    end.
Proof.
  unfold prune_snapshots, query_result, query_reply, prune_header.
  unfold bind at 1. unfold print at 1.
  unfold bind at 1. unfold ws_call at 1.
  rewrite <- app_assoc. simpl app.
  set (t1 := t ++ _).
  unfold bind at 1.
  destruct (Py.iter _) as [snaps | e]; simpl; [| reflexivity].
  unfold bind at 1.
  destruct (select int_of_str prefix snaps []) as [filtered | e]; simpl;
    [| reflexivity].
  unfold bind. rewrite delete_all_run. unfold print, doomed.
  rewrite <- app_assoc. reflexivity.
Qed.

(** ** The first loop *)

Section Select.
Variable int_of_str : string -> option Z.
Variable prefix : string.

Lemma select_cons (snap : json) (rest : list json) (acc : list entry) :
  select int_of_str prefix (snap :: rest) acc
  = match shortname_of snap with
    | Err e => Err e
    | Ok short =>
        if Py.startswith short prefix then
          match created_of int_of_str snap with
          | Err e => Err e
          | Ok time =>
              match Py.subscript snap "id" with
              | Err e => Err e
              | Ok ident =>
                  select int_of_str prefix rest (acc ++ [(time, short, ident)])
              end
          end
        else select int_of_str prefix rest acc
    end.
Proof.
  simpl. destruct (shortname_of snap) as [short | e]; simpl; [| reflexivity].
  destruct (Py.startswith short prefix); [| reflexivity].
  destruct (created_of int_of_str snap); simpl; [| reflexivity].
  destruct (Py.subscript snap "id"); reflexivity.
Qed.

(** The list the loop starts with is only ever extended at its end. *)
Lemma select_acc (snaps : list json) (acc : list entry) :
  select int_of_str prefix snaps acc
  = rbind (select int_of_str prefix snaps []) (fun new => Ok (acc ++ new)).
Proof.
  revert acc. induction snaps as [| snap rest IH]; intros acc.
  - simpl. rewrite app_nil_r. reflexivity.
  - rewrite !select_cons.
    destruct (shortname_of snap) as [short | e]; [| reflexivity].
    destruct (Py.startswith short prefix); [| apply IH].
    destruct (created_of int_of_str snap) as [time | e]; [| reflexivity].
    destruct (Py.subscript snap "id") as [ident | e]; [| reflexivity].
    rewrite IH. rewrite (IH ([] ++ _)).
    destruct (select int_of_str prefix rest []) as [new | e]; simpl;
      [| reflexivity].
    rewrite <- app_assoc. reflexivity.
Qed.

Lemma select_app (pre post : list json) (acc : list entry) :
  select int_of_str prefix (pre ++ post) acc
  = rbind (select int_of_str prefix pre acc) (select int_of_str prefix post).
Proof.
  revert acc. induction pre as [| snap rest IH]; intros acc; [reflexivity |].
  rewrite <- app_comm_cons, !select_cons.
  destruct (shortname_of snap) as [short | e]; [| reflexivity].
  destruct (Py.startswith short prefix); [| apply IH].
  destruct (created_of int_of_str snap) as [time | e]; [| reflexivity].
  destruct (Py.subscript snap "id") as [ident | e]; [| reflexivity].
  apply IH.
Qed.

(** A finished loop has appended one entry for each record whose shortname
    starts with the prefix, in the order of the records, and nothing else. *)
Lemma select_made_from (snaps : list json) (filtered : list entry) :
  select int_of_str prefix snaps [] = Ok filtered ->
  Forall2 (made_from int_of_str prefix) (filter (matches prefix) snaps) filtered.
Proof.
  revert filtered. induction snaps as [| snap rest IH]; intros filtered.
  - simpl. intros [= <-]. constructor.
  - rewrite select_cons. simpl filter.
    replace (matches prefix snap)
      with (match shortname_of snap with
            | Ok short => Py.startswith short prefix
            | Err _ => false
            end) by reflexivity.
    destruct (shortname_of snap) as [short | e] eqn:Hshort; [| discriminate].
    destruct (Py.startswith short prefix) eqn:Hstart; [| apply IH].
    destruct (created_of int_of_str snap) as [time | e] eqn:Htime;
      [| discriminate].
    destruct (Py.subscript snap "id") as [ident | e] eqn:Hid; [| discriminate].
    rewrite select_acc.
    destruct (select int_of_str prefix rest []) as [new | e]; [| discriminate].
    simpl. intros [= <-].
    constructor; [| apply IH; reflexivity].
    repeat split; assumption.
Qed.

(** A record whose name has no [@] stops the loop. *)
Lemma select_stops (pre post : list json) (snap : json) (acc : list entry) :
  shortname_of snap = Err IndexError ->
  select int_of_str prefix (pre ++ snap :: post) acc
  = match select int_of_str prefix pre acc with
    | Ok _ => Err IndexError
    | Err e => Err e
    end.
Proof.
  intros Hsnap. rewrite select_app.
  destruct (select int_of_str prefix pre acc) as [acc' | e]; simpl;
    [| reflexivity].
  change (select int_of_str prefix (snap :: post) acc' = Err IndexError).
  rewrite select_cons, Hsnap. reflexivity.
Qed.

End Select.

Lemma Forall2_in_right {A B} (R : A -> B -> Prop) (l : list A) (l' : list B)
    (b : B) :
  Forall2 R l l' -> In b l' -> exists a, In a l /\ R a b.
Proof.
  induction 1 as [| a b' l l' Hab _ IH]; simpl; [tauto |].
  intros [<- | Hin].
  - exists a. split; [left; reflexivity | exact Hab].
  - destruct (IH Hin) as (a' & Ha' & HR). exists a'. split; [right |]; assumption.
Qed.

Lemma slice_from_sorted {A} (R : A -> A -> Prop) (l : list A) (k : Z) :
  StronglySorted R l -> StronglySorted R (Py.slice_from l k).
Proof.
  intros Hsorted.
  assert (Hskip : forall n, StronglySorted R (skipn n l)).
  { intros n. revert l Hsorted.
    induction n as [| n IH]; intros l Hsorted; [exact Hsorted |].
    destruct l as [| x l]; [constructor |].
    simpl. apply IH. inversion Hsorted; assumption. }
  unfold Py.slice_from. destruct (k <? 0); apply Hskip.
Qed.

Lemma in_slice_from {A} (l : list A) (k : Z) (x : A) :
  In x (Py.slice_from l k) -> In x l.
Proof.
  intros Hin. rewrite <- (slice_split l k). apply in_or_app. right. exact Hin.
Qed.

(** Every doomed entry was made from a record of the query result whose
    shortname starts with the prefix. *)
Lemma doomed_made_from (int_of_str : string -> option Z) (prefix : string)
    (snaps : list json) (filtered : list entry) (keep : Z) (e : entry) :
  select int_of_str prefix snaps [] = Ok filtered ->
  In e (doomed (Py.sort_desc created filtered) keep) ->
  exists snap, In snap snaps /\ matches prefix snap = true /\
               made_from int_of_str prefix snap e.
Proof.
  intros Hsel Hin.
  apply in_slice_from in Hin.
  apply (Permutation_in _ (Permutation_sym (sort_desc_perm created filtered)))
    in Hin.
  destruct (Forall2_in_right _ _ _ _ (select_made_from _ _ _ _ Hsel) Hin)
    as (snap & Hsnap & Hmade).
  apply filter_In in Hsnap. destruct Hsnap as [Hsnap Hmatch].
  exists snap. repeat split; try assumption; apply Hmade.
Qed.

(** ** Login, creation and the main sequence *)

Lemma login_run (ws : service) (token : option string) (t : trace) :
  login ws token t
  = let t1 := t ++ [Send (login_call token)] in
    match Py.assoc "error" (ws (sent t1)) with
    | Some err => (Exit 1, t1 ++ [Print [JStr "Login failed:"; err]])
    | None => (Ret tt, t1)
    end.
Proof.
  unfold login, bind, ws_call, Py.has_key, login_call. simpl.
  destruct (Py.assoc "error" _) as [err |]; reflexivity.
Qed.

Lemma create_snapshot_run (ws : service) (dataset : option string)
    (snapname : string) (t : trace) :
  create_snapshot ws dataset snapname t
  = let t1 := t ++ [ Print [JStr ("Creating snapshot: " ++ snapname)%string];
                     Send (create_call dataset snapname) ] in
    let resp := ws (sent t1) in
    match Py.assoc "error" resp with
    | Some err => (Exit 1, t1 ++ [Print [JStr "ERROR:"; err]])
    | None =>
        match Py.subscript (Py.get "result" resp JNull) "id" with
        | Ok new_id => (Ret tt, t1 ++ [Print [JStr "OK:"; new_id]])
        | Err e => (Raise e, t1)
        end
    end.
Proof.
  unfold create_snapshot, create_call.
  unfold bind at 1. unfold print at 1.
  unfold bind at 1. unfold ws_call at 1.
  rewrite <- app_assoc. simpl app.
  set (t1 := t ++ _). simpl.
  unfold Py.has_key.
  destruct (Py.assoc "error" (ws (sent t1))) as [err |]; simpl.
  - reflexivity.
  - unfold bind, lift, print.
    destruct (Py.subscript _ "id"); reflexivity.
Qed.

(** [main] from a fresh process: the pruning pass is entered only after a
    login and a creation that both returned, and only for a prune count that
    is present and not zero. *)
Lemma main_run (int_of_str : string -> option Z) (net : network) (a : args) :
  main int_of_str net a []
  = match net (url_of (host a)) with
    | None => (Raise ConnectionError, [])
    | Some ws =>
        match login ws (token a) [] with
        | (Ret _, t1) =>
            match create_snapshot ws (dataset a) (snapname a) t1 with
            | (Ret _, t2) =>
                match prune a with
                | Some keep =>
                    if keep =? 0 then (Ret tt, t2)
                    else prune_snapshots int_of_str ws (dataset a) keep
                           (prefix a) t2
                | None => (Ret tt, t2)
                end
            | (Exit code, t2) => (Exit code, t2)
            | (Raise e, t2) => (Raise e, t2)
            end
        | (Exit code, t1) => (Exit code, t1)
        | (Raise e, t1) => (Raise e, t1)
        end
    end.
Proof.
  unfold main, ws_connect, url_of.
  unfold bind at 1.
  destruct (net _) as [ws |]; simpl; [| reflexivity].
  unfold bind at 1.
  destruct (login ws (token a) []) as [[[] | code | e] t1]; try reflexivity.
  unfold bind at 1.
  destruct (create_snapshot ws (dataset a) (snapname a) t1)
    as [[[] | code | e] t2]; try reflexivity.
  destruct (prune a) as [keep |]; simpl; [| reflexivity].
  destruct (keep =? 0); reflexivity.
Qed.

(** The messages of a process that never enters the pruning pass. *)
Lemma login_sent (ws : service) (token : option string) (t : trace) :
  sent (snd (login ws token t)) = sent t ++ [login_call token].
Proof.
  rewrite login_run. cbv zeta.
  destruct (Py.assoc "error" _); simpl; rewrite ?sent_app; simpl;
    rewrite ?app_nil_r; reflexivity.
Qed.

Lemma create_snapshot_sent (ws : service) (dataset : option string)
    (snapname : string) (t : trace) :
  sent (snd (create_snapshot ws dataset snapname t))
  = sent t ++ [create_call dataset snapname].
Proof.
  rewrite create_snapshot_run. cbv zeta.
  destruct (Py.assoc "error" _); [| destruct (Py.subscript _ _)];
    simpl; rewrite ?sent_app; simpl; rewrite ?app_nil_r; reflexivity.
Qed.

Lemma no_prune_calls_login (token : option string) :
  no_prune_calls [login_call token].
Proof. repeat constructor. Qed.

Lemma no_prune_calls_create (token dataset : option string) (snapname : string) :
  no_prune_calls [login_call token; create_call dataset snapname].
Proof. repeat constructor. Qed.

(** Without a prune count that is present and not zero, [main] sends the
    login call, at most the creation call, and nothing else. *)
Lemma main_without_prune (int_of_str : string -> option Z) (net : network)
    (a : args) :
  Py.truthy (prune a) = false ->
  no_prune_calls (sent (snd (main int_of_str net a []))).
Proof.
  intros Hfalsy. rewrite main_run.
  destruct (net _) as [ws |]; [| constructor].
  pose proof (login_sent ws (token a) []) as Hlogin.
  destruct (login ws (token a) []) as [[[] | code | e] t1]; simpl in *;
    try (rewrite Hlogin; apply no_prune_calls_login).
  pose proof (create_snapshot_sent ws (dataset a) (snapname a) t1) as Hcreate.
  rewrite Hlogin in Hcreate.
  assert (Hdone : no_prune_calls
                    (sent (snd (create_snapshot ws (dataset a) (snapname a) t1))))
    by (rewrite Hcreate; apply no_prune_calls_create).
  destruct (create_snapshot ws (dataset a) (snapname a) t1)
    as [[[] | code | e] t2]; simpl in *; try exact Hdone.
  destruct (prune a) as [keep |]; simpl in *; [| exact Hdone].
  destruct (keep =? 0); [exact Hdone | discriminate].
Qed.

(** ** The properties of the specification *)

(** C1.  Whatever the query returns and whatever [keep] is, every message a
    pruning pass sends after its query is a delete call made from a record of
    the query result whose shortname starts with the prefix.  The list the
    pass sorts and cuts holds one entry per such record and none for any
    other record, so a record with another prefix is neither retained nor
    doomed; and no delete call carries the identifier of such a record,
    unless a record with the prefix has the same identifier. *)
Theorem prune_never_touches_other_prefixes
    (int_of_str : string -> option Z) (ws : service) (dataset : option string)
    (keep : Z) (prefix : string) (t : trace) :
  exists new,
    snd (prune_snapshots int_of_str ws dataset keep prefix t)
    = t ++ prune_header dataset keep prefix ++ new /\
    (forall msg, In msg (sent new) ->
       exists snaps snap e n,
         Py.iter (query_result ws dataset keep prefix t) = Ok snaps /\
         In snap snaps /\ matches prefix snap = true /\
         made_from int_of_str prefix snap e /\
         msg = envelope "pool.snapshot.delete" (Some [snap_id e]) n) /\
    (forall snaps filtered,
       Py.iter (query_result ws dataset keep prefix t) = Ok snaps ->
       select int_of_str prefix snaps [] = Ok filtered ->
       let sorted := Py.sort_desc created filtered in
       Forall2 (made_from int_of_str prefix) (filter (matches prefix) snaps)
         filtered /\
       Permutation filtered (retained sorted keep ++ doomed sorted keep)) /\
    (forall snaps snap ident,
       Py.iter (query_result ws dataset keep prefix t) = Ok snaps ->
       In snap snaps -> matches prefix snap = false ->
       Py.subscript snap "id" = Ok ident ->
       (forall other, In other snaps -> matches prefix other = true ->
                      Py.subscript other "id" <> Ok ident) ->
       forall n,
         ~ In (envelope "pool.snapshot.delete" (Some [ident]) n) (sent new)).
Proof.
  rewrite prune_snapshots_run. cbv zeta.
  set (snapshots := Py.iter _).
  assert (Hparts : forall snaps filtered,
             snapshots = Ok snaps ->
             select int_of_str prefix snaps [] = Ok filtered ->
             Forall2 (made_from int_of_str prefix)
               (filter (matches prefix) snaps) filtered /\
             Permutation filtered
               (retained (Py.sort_desc created filtered) keep
                ++ doomed (Py.sort_desc created filtered) keep)).
  { intros snaps filtered _ Hsel. split; [apply select_made_from, Hsel |].
    unfold retained, doomed. rewrite slice_split. apply sort_desc_perm. }
  assert (Hfrom : forall new,
             (forall msg, In msg (sent new) ->
                exists snaps snap e n,
                  snapshots = Ok snaps /\ In snap snaps /\
                  matches prefix snap = true /\
                  made_from int_of_str prefix snap e /\
                  msg = envelope "pool.snapshot.delete" (Some [snap_id e]) n) ->
             forall snaps snap ident,
               snapshots = Ok snaps -> In snap snaps ->
               matches prefix snap = false ->
               Py.subscript snap "id" = Ok ident ->
               (forall other, In other snaps -> matches prefix other = true ->
                              Py.subscript other "id" <> Ok ident) ->
               forall n,
                 ~ In (envelope "pool.snapshot.delete" (Some [ident]) n)
                     (sent new)).
  { intros new Hnew snaps snap ident Hsnaps _ _ _ Hother n Hin.
    destruct (Hnew _ Hin) as (snaps' & other & e & n' & Hsnaps' & Hin' & Hm & Hmade & Heq).
    assert (snaps' = snaps) as -> by congruence.
    apply (Hother other Hin' Hm).
    destruct Hmade as (_ & _ & _ & Hid). rewrite Hid.
    unfold envelope in Heq. congruence. }
  destruct snapshots as [snaps | e] eqn:Hiter.
  - destruct (select int_of_str prefix snaps []) as [filtered | e] eqn:Hsel.
    + eexists. split; [cbn [snd]; rewrite <- app_assoc; reflexivity |].
      assert (Hcalls : forall msg,
                 In msg (sent (delete_events
                                 (doomed (Py.sort_desc created filtered) keep) 10
                               ++ [Print [JStr "Prune completed."]])) ->
                 exists snaps0 snap e n,
                   Ok snaps = Ok snaps0 /\ In snap snaps0 /\
                   matches prefix snap = true /\
                   made_from int_of_str prefix snap e /\
                   msg = envelope "pool.snapshot.delete" (Some [snap_id e]) n).
      { intros msg Hin.
        rewrite sent_app, sent_delete_events in Hin. simpl in Hin.
        rewrite app_nil_r in Hin.
        destruct (delete_calls_in _ _ _ Hin) as (e & n & He & ->).
        destruct (doomed_made_from _ _ _ _ _ _ Hsel He) as (snap & Hs & Hm & Hmade).
        exists snaps, snap, e, n. repeat split; try assumption; apply Hmade. }
      split; [exact Hcalls |]. split; [exact Hparts |]. apply Hfrom, Hcalls.
    + exists []. split; [cbn [snd]; rewrite app_nil_r; reflexivity |].
      split; [intros msg [] |]. split; [exact Hparts |].
      intros; intros [].
  - exists []. split; [cbn [snd]; rewrite app_nil_r; reflexivity |].
    split; [intros msg [] |]. split; [exact Hparts |].
    intros; intros [].
Qed.

(** C2, as stated, fails: for a name with two [@] the script takes the piece
    between them, not everything after the first. *)
Lemma shortname_stops_at_second_at :
  shortname_of (JObj Scenario.two_ats) = Ok "backup-1" /\
  spec_shortname "tank@backup-1@x" = Some "backup-1@x" /\
  ~ (forall items full rest,
       Py.assoc "name" items = Some (JStr full) ->
       spec_shortname full = Some rest ->
       shortname_of (JObj items) = Ok rest).
Proof.
  split; [reflexivity |]. split; [reflexivity |].
  intros H.
  specialize (H Scenario.two_ats "tank@backup-1@x" "backup-1@x" eq_refl eq_refl).
  discriminate H.
Qed.

(** C2, amended.  For a record whose full name has an [@], the shortname is
    the piece of the name between the first [@] and the next one, or the end
    of the name; so for a name of the form [dataset@shortname] with a single
    [@] it is the substring after the [@]. *)
Theorem shortname_is_piece_after_first_at
    (items : list (string * json)) (full rest : string) :
  Py.assoc "name" items = Some (JStr full) ->
  spec_shortname full = Some rest ->
  shortname_of (JObj items) = Ok (Text.before_first "@" rest) /\
  (Text.contains "@" rest = false -> shortname_of (JObj items) = Ok rest).
Proof.
  intros Hname Hrest. unfold spec_shortname in Hrest.
  rewrite (shortname_of_name _ _ Hname), Hrest.
  split; [reflexivity |].
  intros Hnone. rewrite before_first_all by exact Hnone. reflexivity.
Qed.

Lemma shortname_is_piece_after_first_at_witness :
  shortname_of (Scenario.record "backup-A" "100") = Ok "backup-A".
Proof.
  refine (proj2 (shortname_is_piece_after_first_at
                   [ ("id", JStr "tank/data@backup-A");
                     ("name", JStr "tank/data@backup-A");
                     ("properties",
                      JObj [("creation", JObj [("rawvalue", JStr "100")])]) ]
                   "tank/data@backup-A" "backup-A" eq_refl eq_refl) eq_refl).
Defined.

(** C3, as stated, fails for a negative [keep]: the cut [filtered[keep:]]
    then counts from the end, so with [keep = -1] only the oldest of three
    entries is doomed and the other two are retained. *)
Lemma negative_keep_dooms_only_the_oldest :
  retained [Scenario.B; Scenario.D; Scenario.A] (-1)
  = [Scenario.B; Scenario.D] /\
  doomed [Scenario.B; Scenario.D; Scenario.A] (-1) = [Scenario.A] /\
  sent (snd (prune_snapshots Decimal.parse (Scenario.nas Scenario.records)
               Scenario.tank (-1) "backup-" []))
  = [Scenario.query_call; Scenario.delete_call "backup-A" 10] /\
  ~ (forall (sorted : list entry) (keep : Z),
       (keep <= 0 -> retained sorted keep = [] /\ doomed sorted keep = sorted) /\
       (Z.of_nat (List.length sorted) <= keep -> doomed sorted keep = [])).
Proof.
  split; [reflexivity |]. split; [reflexivity |]. split; [reflexivity |].
  intros H.
  destruct (H [Scenario.B; Scenario.D; Scenario.A] (-1)) as [Hneg _].
  destruct Hneg as [Hretained _]; [lia | discriminate Hretained].
Qed.

(** C3, amended.  For a pass whose first loop finishes with [filtered]: if
    [keep] is 0 the retained set is empty, every matching record is doomed
    and a delete call is sent for each; if [keep] is at least the number of
    matching records the doomed set is empty and no delete call is sent. *)
Theorem partition_at_zero_and_beyond
    (int_of_str : string -> option Z) (ws : service) (dataset : option string)
    (keep : Z) (prefix : string) (t : trace)
    (snaps : list json) (filtered : list entry) :
  Py.iter (query_result ws dataset keep prefix t) = Ok snaps ->
  select int_of_str prefix snaps [] = Ok filtered ->
  let sorted := Py.sort_desc created filtered in
  let calls := sent (snd (prune_snapshots int_of_str ws dataset keep prefix t)) in
  (keep = 0 ->
   retained sorted keep = [] /\ doomed sorted keep = sorted /\
   calls = sent (t ++ prune_header dataset keep prefix)
           ++ delete_calls sorted 10 /\
   List.length (delete_calls sorted 10) = List.length filtered) /\
  (Z.of_nat (List.length filtered) <= keep ->
   retained sorted keep = sorted /\ doomed sorted keep = [] /\
   calls = sent (t ++ prune_header dataset keep prefix)).
Proof.
  intros Hiter Hsel sorted calls.
  assert (Hcalls : calls = sent (t ++ prune_header dataset keep prefix)
                           ++ delete_calls (doomed sorted keep) 10).
  { unfold calls. rewrite prune_snapshots_run. cbv zeta.
    rewrite Hiter, Hsel. cbn [snd].
    rewrite (sent_app (t ++ _)), (sent_app (delete_events _ _)),
      sent_delete_events. simpl.
    rewrite app_nil_r. reflexivity. }
  assert (Hlen : List.length sorted = List.length filtered).
  { symmetry. apply Permutation_length, sort_desc_perm. }
  split.
  - intros ->. rewrite Hcalls. unfold retained, doomed.
    rewrite slice_to_zero, slice_from_zero, delete_calls_length.
    repeat split; auto.
  - intros Hbig.
    assert (Hnone : doomed sorted keep = []).
    { unfold doomed. apply slice_from_beyond. lia. }
    rewrite Hcalls, Hnone. simpl. rewrite app_nil_r.
    repeat split; auto.
    pose proof (slice_split sorted keep) as Hsplit.
    unfold doomed in Hnone. rewrite Hnone, app_nil_r in Hsplit. exact Hsplit.
Qed.

Lemma partition_at_zero_and_beyond_witness :
  (doomed [Scenario.B; Scenario.D; Scenario.A] 0
   = [Scenario.B; Scenario.D; Scenario.A]) /\
  (doomed [Scenario.B; Scenario.D; Scenario.A] 3 = []).
Proof.
  split.
  - refine (proj1 (proj2 (proj1 (partition_at_zero_and_beyond Decimal.parse
                                   (Scenario.nas Scenario.records) Scenario.tank
                                   0 "backup-" [] Scenario.records
                                   [Scenario.A; Scenario.B; Scenario.D]
                                   eq_refl eq_refl) eq_refl))).
  - refine (proj1 (proj2 (proj2 (partition_at_zero_and_beyond Decimal.parse
                                   (Scenario.nas Scenario.records) Scenario.tank
                                   3 "backup-" [] Scenario.records
                                   [Scenario.A; Scenario.B; Scenario.D]
                                   eq_refl eq_refl) _))).
    simpl. lia.
Defined.

(** C4, as stated, fails for a negative [keep]: with [keep = -1] two of three
    entries are retained, more than [max(keep, 0) = 0]. *)
Lemma negative_keep_retains_more_than_zero :
  List.length (retained [Scenario.B; Scenario.D; Scenario.A] (-1)) = 2%nat /\
  Z.max (-1) 0 = 0 /\
  ~ (forall (sorted : list entry) (keep : Z),
       (List.length (retained sorted keep) + List.length (doomed sorted keep))%nat
       = List.length sorted /\
       Z.of_nat (List.length (retained sorted keep)) <= Z.max keep 0).
Proof.
  split; [reflexivity |]. split; [reflexivity |].
  intros H.
  destruct (H [Scenario.B; Scenario.D; Scenario.A] (-1)) as [_ Hbound].
  simpl in Hbound. lia.
Qed.

(** C4, amended.  For every list of matching records and every integer
    [keep], the retained and the doomed entries together are as many as the
    matching records; and for every [keep >= 0] the retained entries are at
    most [max(keep, 0)], namely [min(keep, matching.length)]. *)
Theorem partition_lengths (filtered : list entry) (keep : Z) :
  let sorted := Py.sort_desc created filtered in
  (List.length (retained sorted keep) + List.length (doomed sorted keep))%nat
  = List.length filtered /\
  (0 <= keep ->
   Z.of_nat (List.length (retained sorted keep)) <= Z.max keep 0 /\
   Z.of_nat (List.length (retained sorted keep))
   = Z.min keep (Z.of_nat (List.length filtered))).
Proof.
  intros sorted.
  assert (Hlen : List.length sorted = List.length filtered).
  { symmetry. apply Permutation_length, sort_desc_perm. }
  split.
  - unfold retained, doomed. rewrite slice_lengths. exact Hlen.
  - intros Hkeep. unfold retained.
    rewrite slice_to_length_nonneg by exact Hkeep. rewrite Hlen. lia.
Qed.

Lemma partition_lengths_witness :
  Z.of_nat (List.length
              (retained (Py.sort_desc created
                           [Scenario.A; Scenario.B; Scenario.D]) 2))
  <= Z.max 2 0.
Proof.
  refine (proj1 (proj2 (partition_lengths
                          [Scenario.A; Scenario.B; Scenario.D] 2) _)).
  lia.
Defined.

(** C5.  The scenario of the specification: of the four records, A, B and D
    match the prefix; sorted newest first they are B, D, A; with [keep = 2]
    B and D are retained and A is doomed; the pass sends its query and one
    delete call, for A, and returns. *)
Theorem scenario_keep_two :
  let filtered := [Scenario.A; Scenario.B; Scenario.D] in
  let sorted := [Scenario.B; Scenario.D; Scenario.A] in
  filter (matches "backup-") Scenario.records
  = [ Scenario.record "backup-A" "100"; Scenario.record "backup-B" "300";
      Scenario.record "backup-D" "200" ] /\
  select Decimal.parse "backup-" Scenario.records [] = Ok filtered /\
  Py.sort_desc created filtered = sorted /\
  retained sorted 2 = [Scenario.B; Scenario.D] /\
  doomed sorted 2 = [Scenario.A] /\
  prune_snapshots Decimal.parse (Scenario.nas Scenario.records) Scenario.tank
    2 "backup-" []
  = (Ret tt,
     [ Print [JStr "Pruning snapshots, keeping last 2 with prefix 'backup-'"];
       Send Scenario.query_call;
       Print [JStr "Deleting: backup-A"];
       Send (Scenario.delete_call "backup-A" 10);
       Print [JStr "Prune completed."] ]).
Proof. repeat split; reflexivity. Qed.

(** C6.  For a query result on which the first loop finishes, the sequence
    the pass sorts its entries into is non-increasing in the parsed creation
    time (newest first): it has the entries of the loop, those of equal time
    in the order of the query result, and sorting it again changes nothing.
    This is the sequence the pass works on: it cuts it at [keep] and sends
    the delete calls of the cut in that order, so with [keep = 0] the delete
    calls run through the whole sequence, newest first.  A second pass that
    reads the same query result, on any connection, sorts to the same
    sequence and sends the same delete calls. *)
Theorem sort_is_newest_first_and_repeatable
    (int_of_str : string -> option Z) (ws ws' : service)
    (dataset : option string) (keep : Z) (prefix : string) (t t' : trace)
    (snaps : list json) (filtered : list entry) :
  Py.iter (query_result ws dataset keep prefix t) = Ok snaps ->
  select int_of_str prefix snaps [] = Ok filtered ->
  let sorted := Py.sort_desc created filtered in
  StronglySorted newer_or_equal sorted /\
  Permutation filtered sorted /\
  (forall time, filter (fun e => created e =? time) sorted
                = filter (fun e => created e =? time) filtered) /\
  Py.sort_desc created sorted = sorted /\
  prune_snapshots int_of_str ws dataset keep prefix t
  = (Ret tt,
     t ++ prune_header dataset keep prefix
       ++ delete_events (Py.slice_from sorted keep) 10
       ++ [Print [JStr "Prune completed."]]) /\
  StronglySorted newer_or_equal (Py.slice_from sorted keep) /\
  (keep = 0 ->
   sent (snd (prune_snapshots int_of_str ws dataset keep prefix t))
   = sent (t ++ prune_header dataset keep prefix) ++ delete_calls sorted 10) /\
  (query_result ws' dataset keep prefix t' = query_result ws dataset keep prefix t ->
   prune_snapshots int_of_str ws' dataset keep prefix t'
   = (Ret tt,
      t' ++ prune_header dataset keep prefix
         ++ delete_events (Py.slice_from sorted keep) 10
         ++ [Print [JStr "Prune completed."]])).
Proof.
  intros Hiter Hsel sorted.
  assert (Hrun : prune_snapshots int_of_str ws dataset keep prefix t
                 = (Ret tt,
                    t ++ prune_header dataset keep prefix
                      ++ delete_events (Py.slice_from sorted keep) 10
                      ++ [Print [JStr "Prune completed."]])).
  { rewrite prune_snapshots_run. cbv zeta.
    rewrite Hiter, Hsel, <- app_assoc. reflexivity. }
  split; [apply sort_desc_sorted |].
  split; [apply sort_desc_perm |].
  split; [intros time; apply sort_desc_stable |].
  split; [apply sort_desc_idempotent |].
  split; [exact Hrun |].
  split; [apply slice_from_sorted, sort_desc_sorted |].
  split.
  - intros ->. rewrite Hrun. cbn [snd].
    rewrite slice_from_zero, app_assoc, (sent_app (t ++ _)),
      (sent_app (delete_events _ _)), sent_delete_events.
    simpl. rewrite app_nil_r. reflexivity.
  - intros Hsame. rewrite prune_snapshots_run. cbv zeta.
    rewrite Hsame, Hiter, Hsel, <- app_assoc. reflexivity.
Qed.

Lemma sort_is_newest_first_and_repeatable_witness :
  StronglySorted newer_or_equal [Scenario.B; Scenario.D; Scenario.A] /\
  sent (snd (prune_snapshots Decimal.parse (Scenario.nas Scenario.records)
               Scenario.tank 0 "backup-" []))
  = [ Scenario.query_call; Scenario.delete_call "backup-B" 10;
      Scenario.delete_call "backup-D" 11; Scenario.delete_call "backup-A" 12 ].
Proof.
  pose proof (sort_is_newest_first_and_repeatable Decimal.parse
                (Scenario.nas Scenario.records)
                (Scenario.nas Scenario.records)
                Scenario.tank 0 "backup-" [] [] Scenario.records
                [Scenario.A; Scenario.B; Scenario.D] eq_refl eq_refl)
    as (Hsorted & _ & _ & _ & _ & _ & Hcalls & _).
  split; [exact Hsorted | exact (Hcalls eq_refl)].
Defined.

(** C7.  When the login is accepted and the reply to the creation call has an
    [error] field, [main] prints the error and exits with status 1 right
    after the creation call: neither the query nor any delete call is sent,
    whatever prune count was given. *)
Theorem creation_error_is_fatal
    (int_of_str : string -> option Z) (net : network) (a : args)
    (ws : service) (err : json) :
  net (url_of (host a)) = Some ws ->
  Py.has_key "error" (ws [login_call (token a)]) = false ->
  Py.assoc "error"
    (ws [login_call (token a); create_call (dataset a) (snapname a)])
  = Some err ->
  main int_of_str net a []
  = (Exit 1,
     [ Send (login_call (token a));
       Print [JStr ("Creating snapshot: " ++ snapname a)%string];
       Send (create_call (dataset a) (snapname a));
       Print [JStr "ERROR:"; err] ]) /\
  exit_status (fst (main int_of_str net a [])) = 1 /\
  sent (snd (main int_of_str net a []))
  = [login_call (token a); create_call (dataset a) (snapname a)] /\
  no_prune_calls (sent (snd (main int_of_str net a []))).
Proof.
  intros Hnet Hlogin Hcreate.
  assert (Hrun : main int_of_str net a []
                 = (Exit 1,
                    [ Send (login_call (token a));
                      Print [JStr ("Creating snapshot: " ++ snapname a)%string];
                      Send (create_call (dataset a) (snapname a));
                      Print [JStr "ERROR:"; err] ])).
  { rewrite main_run, Hnet, login_run. cbv zeta. simpl app. simpl sent.
    unfold Py.has_key in Hlogin.
    destruct (Py.assoc "error" (ws [login_call (token a)])); [discriminate |].
    rewrite create_snapshot_run. cbv zeta. simpl app. simpl sent.
    rewrite Hcreate. reflexivity. }
  rewrite Hrun. repeat split. apply no_prune_calls_create.
Qed.

Lemma creation_error_is_fatal_witness :
  main Decimal.parse (Scenario.lan Scenario.full_nas) (Scenario.cli (Some 2)) []
  = (Exit 1,
     [ Send (login_call (Some "secret"));
       Print [JStr "Creating snapshot: backup-E"];
       Send (create_call Scenario.tank "backup-E");
       Print [JStr "ERROR:"; JStr "out of space"] ]).
Proof.
  refine (proj1 (creation_error_is_fatal Decimal.parse
                   (Scenario.lan Scenario.full_nas) (Scenario.cli (Some 2))
                   Scenario.full_nas (JStr "out of space")
                   eq_refl eq_refl eq_refl)).
Defined.

(** C8.  When the first loop finishes, the pass sends exactly one delete call
    for each doomed entry, in the sorted order and with request ids 10, 11,
    ...; it then prints the completion notice and returns, so that the exit
    status is 0.  The replies to the delete calls have no part in this: a
    service that answers the query alike and the deletions in any other way,
    with or without an [error] field, gives the same run. *)
Theorem deletes_are_sent_and_not_inspected
    (int_of_str : string -> option Z) (ws ws' : service)
    (dataset : option string) (keep : Z) (prefix : string) (t : trace)
    (snaps : list json) (filtered : list entry) :
  Py.iter (query_result ws dataset keep prefix t) = Ok snaps ->
  select int_of_str prefix snaps [] = Ok filtered ->
  let to_delete := doomed (Py.sort_desc created filtered) keep in
  StronglySorted newer_or_equal to_delete /\
  prune_snapshots int_of_str ws dataset keep prefix t
  = (Ret tt,
     t ++ prune_header dataset keep prefix ++ delete_events to_delete 10
       ++ [Print [JStr "Prune completed."]]) /\
  sent (snd (prune_snapshots int_of_str ws dataset keep prefix t))
  = sent (t ++ prune_header dataset keep prefix) ++ delete_calls to_delete 10 /\
  List.length (delete_calls to_delete 10) = List.length to_delete /\
  (forall i,
     nth_error (delete_calls to_delete 10) i
     = option_map
         (fun e => envelope "pool.snapshot.delete" (Some [snap_id e])
                     (10 + Z.of_nat i))
         (nth_error to_delete i)) /\
  exit_status (fst (prune_snapshots int_of_str ws dataset keep prefix t)) = 0 /\
  (query_reply ws' dataset keep prefix t = query_reply ws dataset keep prefix t ->
   prune_snapshots int_of_str ws' dataset keep prefix t
   = prune_snapshots int_of_str ws dataset keep prefix t).
Proof.
  intros Hiter Hsel to_delete.
  assert (Hrun : prune_snapshots int_of_str ws dataset keep prefix t
                 = (Ret tt,
                    t ++ prune_header dataset keep prefix
                      ++ delete_events to_delete 10
                      ++ [Print [JStr "Prune completed."]])).
  { rewrite prune_snapshots_run. cbv zeta.
    rewrite Hiter, Hsel, <- app_assoc. reflexivity. }
  split; [apply slice_from_sorted, sort_desc_sorted |].
  split; [exact Hrun |].
  split.
  { rewrite Hrun. cbn [snd].
    rewrite app_assoc, (sent_app (t ++ _)), (sent_app (delete_events _ _)),
      sent_delete_events.
    simpl. rewrite app_nil_r. reflexivity. }
  split; [apply delete_calls_length |].
  split; [intros i; apply delete_calls_nth |].
  split; [rewrite Hrun; reflexivity |].
  intros Hsame. rewrite !prune_snapshots_run. unfold query_result.
  rewrite Hsame. reflexivity.
Qed.

Lemma deletes_are_sent_and_not_inspected_witness :
  prune_snapshots Decimal.parse (Scenario.nas Scenario.records) Scenario.tank
    1 "backup-" []
  = (Ret tt,
     [ Print [JStr "Pruning snapshots, keeping last 1 with prefix 'backup-'"];
       Send Scenario.query_call;
       Print [JStr "Deleting: backup-D"];
       Send (Scenario.delete_call "backup-D" 10);
       Print [JStr "Deleting: backup-A"];
       Send (Scenario.delete_call "backup-A" 11);
       Print [JStr "Prune completed."] ]) /\
  Scenario.nas Scenario.records
    [Scenario.query_call; Scenario.delete_call "backup-D" 10]
  = [("error", JStr "busy")].
Proof.
  split; [| reflexivity].
  refine (proj1 (proj2 (deletes_are_sent_and_not_inspected Decimal.parse
                   (Scenario.nas Scenario.records)
                   (Scenario.nas Scenario.records)
                   Scenario.tank 1 "backup-" [] Scenario.records
                   [Scenario.A; Scenario.B; Scenario.D] eq_refl eq_refl))).
Defined.

(** C9.  [main] tests the prune count for truth, not for presence: with
    [--prune 0] the process sends what it sends without [--prune], so neither
    the query nor a delete call; a process that sends either was given a
    prune count other than zero; and after a login and a creation that both
    returned, a prune count other than zero does start the pass. *)
Theorem prune_zero_skips_the_pass
    (int_of_str : string -> option Z) (net : network) (a : args) :
  (prune a = Some 0 ->
   no_prune_calls (sent (snd (main int_of_str net a []))) /\
   main int_of_str net a []
   = main int_of_str net
       {| snapname := snapname a; dataset := dataset a; host := host a;
          token := token a; prune := None; prefix := prefix a |} []) /\
  (~ no_prune_calls (sent (snd (main int_of_str net a []))) ->
   exists keep, prune a = Some keep /\ keep <> 0) /\
  (forall ws keep t1 t2,
     net (url_of (host a)) = Some ws ->
     login ws (token a) [] = (Ret tt, t1) ->
     create_snapshot ws (dataset a) (snapname a) t1 = (Ret tt, t2) ->
     prune a = Some keep -> keep <> 0 ->
     main int_of_str net a []
     = prune_snapshots int_of_str ws (dataset a) keep (prefix a) t2).
Proof.
  split; [| split].
  - intros Hzero. split.
    + apply main_without_prune. rewrite Hzero. reflexivity.
    + rewrite !main_run. cbn [host token dataset snapname prune prefix].
      rewrite Hzero. simpl.
      destruct (net _) as [ws |]; [| reflexivity].
      destruct (login ws (token a) []) as [[[] | code | e] t1]; reflexivity.
  - intros Hcalls.
    destruct (prune a) as [keep |] eqn:Hprune.
    + exists keep. split; [reflexivity |].
      intros ->. apply Hcalls, main_without_prune.
      rewrite Hprune. reflexivity.
    + exfalso. apply Hcalls, main_without_prune.
      rewrite Hprune. reflexivity.
  - intros ws keep t1 t2 Hnet Hlogin Hcreate Hprune Hkeep.
    rewrite main_run, Hnet, Hlogin, Hcreate, Hprune.
    destruct (Z.eqb_spec keep 0); [contradiction | reflexivity].
Qed.

Lemma prune_zero_skips_the_pass_witness :
  sent (snd (main Decimal.parse (Scenario.lan (Scenario.nas Scenario.records))
               (Scenario.cli (Some 0)) []))
  = [login_call (Some "secret"); create_call Scenario.tank "backup-E"] /\
  no_prune_calls
    (sent (snd (main Decimal.parse
                  (Scenario.lan (Scenario.nas Scenario.records))
                  (Scenario.cli (Some 0)) []))).
Proof.
  split; [reflexivity |].
  refine (proj1 (proj1 (prune_zero_skips_the_pass Decimal.parse
                          (Scenario.lan (Scenario.nas Scenario.records))
                          (Scenario.cli (Some 0))) eq_refl)).
Defined.

(** C10.  A record of the query result whose name has no [@] is not skipped:
    its shortname cannot be derived, the index 1 being out of range, and the
    pass stops with an exception inside the first loop ([IndexError], unless
    an earlier record already raised another) having sent its query and no
    delete call at all. *)
Theorem name_without_at_aborts_the_pass
    (int_of_str : string -> option Z) (ws : service) (dataset : option string)
    (keep : Z) (prefix : string) (t : trace)
    (pre post : list json) (items : list (string * json)) (full : string) :
  Py.iter (query_result ws dataset keep prefix t)
  = Ok (pre ++ JObj items :: post) ->
  Py.assoc "name" items = Some (JStr full) ->
  Text.contains "@" full = false ->
  shortname_of (JObj items) = Err IndexError /\
  (exists e,
     prune_snapshots int_of_str ws dataset keep prefix t
     = (Raise e, t ++ prune_header dataset keep prefix) /\
     (forall acc, select int_of_str prefix pre [] = Ok acc -> e = IndexError)) /\
  sent (snd (prune_snapshots int_of_str ws dataset keep prefix t))
  = sent t ++ [envelope "pool.snapshot.query" (Some (query_params dataset)) 3].
Proof.
  intros Hiter Hname Hfull.
  assert (Hshort : shortname_of (JObj items) = Err IndexError).
  { rewrite (shortname_of_name _ _ Hname), after_first_none by exact Hfull.
    reflexivity. }
  split; [exact Hshort |].
  rewrite prune_snapshots_run. cbv zeta.
  rewrite Hiter, (select_stops _ _ _ _ _ _ Hshort).
  destruct (select int_of_str prefix pre []) as [acc | e].
  - split.
    + exists IndexError. split; [reflexivity | intros; reflexivity].
    + cbn [snd]. rewrite sent_app. reflexivity.
  - split.
    + exists e. split; [reflexivity | intros acc [=]].
    + cbn [snd]. rewrite sent_app. reflexivity.
Qed.

Lemma name_without_at_aborts_the_pass_witness :
  prune_snapshots Decimal.parse
    (Scenario.nas (Scenario.record "backup-B" "300" :: Scenario.no_at
                   :: [Scenario.record "backup-A" "100"]))
    Scenario.tank 0 "backup-" []
  = (Raise IndexError, prune_header Scenario.tank 0 "backup-").
Proof.
  destruct (name_without_at_aborts_the_pass Decimal.parse
              (Scenario.nas (Scenario.record "backup-B" "300" :: Scenario.no_at
                             :: [Scenario.record "backup-A" "100"]))
              Scenario.tank 0 "backup-" []
              [Scenario.record "backup-B" "300"]
              [Scenario.record "backup-A" "100"]
              [ ("id", JStr "tank-backup-9"); ("name", JStr "tank-backup-9");
                ("properties",
                 JObj [("creation", JObj [("rawvalue", JStr "50")])]) ]
              "tank-backup-9" eq_refl eq_refl eq_refl)
    as (_ & (e & Hrun & Hfirst) & _).
  rewrite Hrun, (Hfirst [Scenario.B] eq_refl). reflexivity.
Defined.

(** ** Further properties of the script *)

(** X1.  When the reply to the login call has an [error] field, whatever its
    value, [main] prints it and exits with status 1 having sent the login
    call only: no snapshot is created and nothing is pruned. *)
Theorem login_error_is_fatal
    (int_of_str : string -> option Z) (net : network) (a : args)
    (ws : service) (err : json) :
  net (url_of (host a)) = Some ws ->
  Py.assoc "error" (ws [login_call (token a)]) = Some err ->
  main int_of_str net a []
  = (Exit 1,
     [ Send (login_call (token a)); Print [JStr "Login failed:"; err] ]) /\
  exit_status (fst (main int_of_str net a [])) = 1 /\
  sent (snd (main int_of_str net a [])) = [login_call (token a)].
Proof.
  intros Hnet Herr.
  assert (Hrun : main int_of_str net a []
                 = (Exit 1,
                    [ Send (login_call (token a));
                      Print [JStr "Login failed:"; err] ])).
  { rewrite main_run, Hnet, login_run. cbv zeta. simpl app. simpl sent.
    rewrite Herr. reflexivity. }
  rewrite Hrun. repeat split.
Qed.

Lemma login_error_is_fatal_witness :
  main Decimal.parse (Scenario.lan Cases.locked) (Scenario.cli (Some 2)) []
  = (Exit 1,
     [ Send (login_call (Some "secret"));
       Print [JStr "Login failed:"; JStr "bad key"] ]).
Proof.
  refine (proj1 (login_error_is_fatal Decimal.parse (Scenario.lan Cases.locked)
                   (Scenario.cli (Some 2)) Cases.locked (JStr "bad key")
                   eq_refl eq_refl)).
Defined.

(** X2.  A reply to the creation call that has no [error] field is read for
    [result["id"]] without a check: when it has no [result] either, [main]
    ends with an uncaught [TypeError], and when its [result] is a dict
    without [id], with a [KeyError].  In both cases the creation call has
    been sent, the exit status is 1 and the pruning pass is not started. *)
Theorem creation_reply_without_id_raises
    (int_of_str : string -> option Z) (net : network) (a : args)
    (ws : service) :
  net (url_of (host a)) = Some ws ->
  Py.has_key "error" (ws [login_call (token a)]) = false ->
  let reply := ws [login_call (token a);
                   create_call (dataset a) (snapname a)] in
  let started := [ Send (login_call (token a));
                   Print [JStr ("Creating snapshot: " ++ snapname a)%string];
                   Send (create_call (dataset a) (snapname a)) ] in
  Py.has_key "error" reply = false ->
  (Py.assoc "result" reply = None ->
   main int_of_str net a [] = (Raise TypeError, started)) /\
  (forall items,
     Py.assoc "result" reply = Some (JObj items) ->
     Py.assoc "id" items = None ->
     main int_of_str net a [] = (Raise KeyError, started)).
Proof.
  intros Hnet Hlogin reply started Hcreate.
  assert (Hrun : main int_of_str net a []
                 = match Py.subscript (Py.get "result" reply JNull) "id" with
                   | Ok new_id =>
                       match prune a with
                       | Some keep =>
                           if keep =? 0
                           then (Ret tt, started ++ [Print [JStr "OK:"; new_id]])
                           else prune_snapshots int_of_str ws (dataset a) keep
                                  (prefix a)
                                  (started ++ [Print [JStr "OK:"; new_id]])
                       | None => (Ret tt, started ++ [Print [JStr "OK:"; new_id]])
                       end
                   | Err e => (Raise e, started)
                   end).
  { rewrite main_run, Hnet, login_run. cbv zeta. simpl app. simpl sent.
    unfold Py.has_key in Hlogin.
    destruct (Py.assoc "error" (ws [login_call (token a)])); [discriminate |].
    rewrite create_snapshot_run. cbv zeta. simpl app. simpl sent.
    fold reply. unfold Py.has_key in Hcreate.
    destruct (Py.assoc "error" reply); [discriminate |].
    destruct (Py.subscript _ "id"); reflexivity. }
  split.
  - intros Hnone. rewrite Hrun. unfold Py.get. rewrite Hnone. reflexivity.
  - intros items Hsome Hid. rewrite Hrun. unfold Py.get. rewrite Hsome.
    simpl. rewrite Hid. reflexivity.
Qed.

Lemma creation_reply_without_id_raises_witness :
  main Decimal.parse (Scenario.lan Cases.mute) (Scenario.cli (Some 2)) []
  = (Raise TypeError,
     [ Send (login_call (Some "secret"));
       Print [JStr "Creating snapshot: backup-E"];
       Send (create_call Scenario.tank "backup-E") ]).
Proof.
  refine (proj1 (creation_reply_without_id_raises Decimal.parse
                   (Scenario.lan Cases.mute) (Scenario.cli (Some 2)) Cases.mute
                   eq_refl eq_refl eq_refl) eq_refl).
Defined.

(** X3.  The whole sequence on success: with the login accepted, the creation
    answered with an id, a prune count other than zero and a query result the
    first loop gets through, [main] sends the login, creation and query calls
    and then one delete call per doomed entry, prints the id and the
    completion notice, and ends with exit status 0. *)
Theorem main_succeeds
    (int_of_str : string -> option Z) (net : network) (a : args)
    (ws : service) (keep : Z) (new_id : json)
    (snaps : list json) (filtered : list entry) :
  net (url_of (host a)) = Some ws ->
  Py.has_key "error" (ws [login_call (token a)]) = false ->
  let reply := ws [login_call (token a);
                   create_call (dataset a) (snapname a)] in
  let created_trace :=
    [ Send (login_call (token a));
      Print [JStr ("Creating snapshot: " ++ snapname a)%string];
      Send (create_call (dataset a) (snapname a));
      Print [JStr "OK:"; new_id] ] in
  Py.has_key "error" reply = false ->
  Py.subscript (Py.get "result" reply JNull) "id" = Ok new_id ->
  prune a = Some keep -> keep <> 0 ->
  Py.iter (query_result ws (dataset a) keep (prefix a) created_trace)
  = Ok snaps ->
  select int_of_str (prefix a) snaps [] = Ok filtered ->
  let to_delete := doomed (Py.sort_desc created filtered) keep in
  main int_of_str net a []
  = (Ret tt,
     created_trace ++ prune_header (dataset a) keep (prefix a)
       ++ delete_events to_delete 10 ++ [Print [JStr "Prune completed."]]) /\
  sent (snd (main int_of_str net a []))
  = [ login_call (token a); create_call (dataset a) (snapname a);
      envelope "pool.snapshot.query" (Some (query_params (dataset a))) 3 ]
    ++ delete_calls to_delete 10 /\
  exit_status (fst (main int_of_str net a [])) = 0.
Proof.
  intros Hnet Hlogin reply created_trace Hcreate Hid Hprune Hkeep Hiter Hsel
    to_delete.
  assert (Hrun : main int_of_str net a []
                 = (Ret tt,
                    created_trace ++ prune_header (dataset a) keep (prefix a)
                      ++ delete_events to_delete 10
                      ++ [Print [JStr "Prune completed."]])).
  { rewrite main_run, Hnet, login_run. cbv zeta. cbn [List.app sent].
    unfold Py.has_key in Hlogin.
    destruct (Py.assoc "error" (ws [login_call (token a)])); [discriminate |].
    rewrite create_snapshot_run. cbv zeta. cbn [List.app sent].
    fold reply. unfold Py.has_key in Hcreate.
    destruct (Py.assoc "error" reply); [discriminate |].
    rewrite Hid, Hprune.
    destruct (Z.eqb_spec keep 0); [contradiction |].
    rewrite prune_snapshots_run. cbv zeta.
    unfold created_trace in *.
    rewrite Hiter, Hsel, <- app_assoc. reflexivity. }
  rewrite Hrun. cbn [fst snd]. split; [reflexivity |]. split; [| reflexivity].
  rewrite sent_app, sent_app, (sent_app (delete_events _ _)),
    sent_delete_events.
  simpl. rewrite app_nil_r. reflexivity.
Qed.

Lemma main_succeeds_witness :
  sent (snd (main Decimal.parse (Scenario.lan Cases.healthy)
               (Scenario.cli (Some 1)) []))
  = [ login_call (Some "secret"); create_call Scenario.tank "backup-E";
      Scenario.query_call; Scenario.delete_call "backup-D" 10;
      Scenario.delete_call "backup-A" 11 ].
Proof.
  refine (proj1 (proj2 (main_succeeds Decimal.parse (Scenario.lan Cases.healthy)
                          (Scenario.cli (Some 1)) Cases.healthy 1
                          (JStr "tank/data@backup-E") Scenario.records
                          [Scenario.A; Scenario.B; Scenario.D]
                          eq_refl eq_refl eq_refl eq_refl eq_refl _
                          eq_refl eq_refl))).
  discriminate.
Defined.

(** What a pass sends: its query, then delete calls only. *)
Lemma prune_snapshots_sent (int_of_str : string -> option Z) (ws : service)
    (dataset : option string) (keep : Z) (prefix : string) (t : trace) :
  exists l,
    sent (snd (prune_snapshots int_of_str ws dataset keep prefix t))
    = sent t
      ++ envelope "pool.snapshot.query" (Some (query_params dataset)) 3
         :: delete_calls l 10.
Proof.
  rewrite prune_snapshots_run. cbv zeta.
  destruct (Py.iter _) as [snaps | e].
  - destruct (select int_of_str prefix snaps []) as [filtered | e].
    + exists (doomed (Py.sort_desc created filtered) keep). cbn [snd].
      rewrite (sent_app (t ++ _)), (sent_app (delete_events _ _)),
        sent_delete_events, sent_app.
      simpl. rewrite app_nil_r, <- app_assoc. reflexivity.
    + exists []. cbn [snd]. rewrite sent_app. reflexivity.
  - exists []. cbn [snd]. rewrite sent_app. reflexivity.
Qed.

(** What a process sends, in order: the login call, then the creation call,
    then the query, then delete calls; it may stop after any of them. *)
Lemma main_sent (int_of_str : string -> option Z) (net : network) (a : args) :
  let msgs := sent (snd (main int_of_str net a [])) in
  msgs = [] \/
  msgs = [login_call (token a)] \/
  msgs = [login_call (token a); create_call (dataset a) (snapname a)] \/
  exists l,
    msgs = login_call (token a) :: create_call (dataset a) (snapname a)
           :: envelope "pool.snapshot.query"
                (Some (query_params (dataset a))) 3
           :: delete_calls l 10.
Proof.
  cbv zeta. rewrite main_run.
  destruct (net _) as [ws |]; [| left; reflexivity].
  pose proof (login_sent ws (token a) []) as Hlogin.
  destruct (login ws (token a) []) as [[[] | code | e] t1]; simpl in Hlogin;
    try (right; left; exact Hlogin).
  pose proof (create_snapshot_sent ws (dataset a) (snapname a) t1) as Hcreate.
  rewrite Hlogin in Hcreate.
  destruct (create_snapshot ws (dataset a) (snapname a) t1)
    as [[[] | code | e] t2]; simpl in Hcreate;
    try (right; right; left; exact Hcreate).
  destruct (prune a) as [keep |]; [| right; right; left; exact Hcreate].
  destruct (keep =? 0); [right; right; left; exact Hcreate |].
  right; right; right.
  destruct (prune_snapshots_sent int_of_str ws (dataset a) keep (prefix a) t2)
    as [l Hl].
  exists l. rewrite Hl, Hcreate. reflexivity.
Qed.

Lemma delete_calls_ids (l : list entry) (req_id : Z) :
  exists ids,
    map request_id (delete_calls l req_id) = map Some ids /\
    StronglySorted Z.lt ids /\ Forall (fun i => req_id <= i) ids.
Proof.
  revert req_id. induction l as [| e l IH]; intros req_id.
  - exists []. repeat split; constructor.
  - destruct (IH (req_id + 1)) as (ids & Hmap & Hsorted & Hlow).
    exists (req_id :: ids). simpl. rewrite Hmap.
    split; [reflexivity |]. split.
    + constructor; [exact Hsorted |].
      eapply Forall_impl; [| exact Hlow]. simpl; intros; lia.
    + constructor; [lia |].
      eapply Forall_impl; [| exact Hlow]. simpl; intros; lia.
Qed.

(** X4.  Every message a process sends carries an integer request id, and
    along the session the ids strictly increase (1 for the login, 2 for the
    creation, 3 for the query, 10, 11, ... for the deletions): no id is used
    twice on a connection. *)
Theorem request_ids_increase
    (int_of_str : string -> option Z) (net : network) (a : args) :
  exists ids,
    map request_id (sent (snd (main int_of_str net a []))) = map Some ids /\
    StronglySorted Z.lt ids /\ NoDup ids.
Proof.
  assert (Hids : exists ids,
             map request_id (sent (snd (main int_of_str net a [])))
             = map Some ids /\ StronglySorted Z.lt ids).
  { destruct (main_sent int_of_str net a) as [H | [H | [H | [l H]]]];
      rewrite H.
    - exists []. split; [reflexivity | constructor].
    - exists [1]. split; [reflexivity | repeat constructor].
    - exists [1; 2]. split; [reflexivity | repeat constructor].
    - destruct (delete_calls_ids l 10) as (ids & Hmap & Hsorted & Hlow).
      exists (1 :: 2 :: 3 :: ids). simpl map. rewrite Hmap.
      split; [reflexivity |].
      repeat constructor; try exact Hsorted;
        eapply Forall_impl; try exact Hlow; simpl; intros; lia. }
  destruct Hids as (ids & Hmap & Hsorted).
  exists ids. split; [exact Hmap |]. split; [exact Hsorted |].
  clear Hmap. induction Hsorted as [| i ids Hs IH Hall]; constructor.
  - intros Hin. rewrite Forall_forall in Hall. specialize (Hall i Hin). lia.
  - exact IH.
Qed.

(** X5.  The exit status of the script.  When [argparse] ends the process in
    [parse_args()], the status is the one [argparse] chose and nothing has
    been sent.  Once [parse_args()] has returned, the status is 0 or 1: the
    script calls [sys.exit] with 1 only, an uncaught exception ends the
    process with 1 too, and the pruning pass itself never calls
    [sys.exit]. *)
Theorem exit_status_once_parsed
    (int_of_str : string -> option Z) (net : network) :
  (forall code,
     script int_of_str (Exit code) net [] = (Exit code, []) /\
     exit_status (fst (script int_of_str (Exit code) net [])) = code) /\
  (forall a,
     script int_of_str (Ret a) net [] = main int_of_str net a [] /\
     (exit_status (fst (script int_of_str (Ret a) net [])) = 0 \/
      exit_status (fst (script int_of_str (Ret a) net [])) = 1) /\
     (forall code,
        fst (script int_of_str (Ret a) net []) = Exit code -> code = 1)) /\
  (forall ws dataset keep prefix t code,
     fst (prune_snapshots int_of_str ws dataset keep prefix t) <> Exit code).
Proof.
  assert (Hprune : forall ws dataset keep prefix t code,
             fst (prune_snapshots int_of_str ws dataset keep prefix t)
             <> Exit code).
  { intros ws ds keep pre t code. rewrite prune_snapshots_run. cbv zeta.
    destruct (Py.iter _) as [snaps | e]; [| discriminate].
    destruct (select int_of_str pre snaps []); discriminate. }
  assert (Hexit : forall a code,
             fst (main int_of_str net a []) = Exit code -> code = 1).
  { intros a code. rewrite main_run.
    destruct (net _) as [ws |]; [| discriminate].
    rewrite login_run. cbv zeta.
    destruct (Py.assoc "error" _); [intros [= <-]; reflexivity |].
    rewrite create_snapshot_run. cbv zeta.
    destruct (Py.assoc "error" _); [intros [= <-]; reflexivity |].
    destruct (Py.subscript _ "id"); [| discriminate].
    destruct (prune a) as [keep |]; [| discriminate].
    destruct (keep =? 0); [discriminate |].
    intros H. exfalso. exact (Hprune _ _ _ _ _ _ H). }
  split; [intros code; split; reflexivity |].
  split; [| exact Hprune].
  intros a. unfold script.
  split; [reflexivity |]. split; [| apply Hexit].
  destruct (fst (main int_of_str net a [])) as [[] | code | e] eqn:Hout.
  - left; reflexivity.
  - right. simpl. apply (Hexit a). exact Hout.
  - right; reflexivity.
Qed.

Lemma exit_status_once_parsed_witness :
  exit_status (fst (script Decimal.parse (Exit 2)
                      (Scenario.lan Cases.healthy) [])) = 2 /\
  exit_status (fst (script Decimal.parse (Ret (Scenario.cli (Some 1)))
                      (Scenario.lan Cases.healthy) [])) = 0 /\
  exit_status (fst (script Decimal.parse (Ret (Scenario.cli (Some 1)))
                      (Scenario.lan Cases.locked) [])) = 1.
Proof.
  pose proof (exit_status_once_parsed Decimal.parse
                (Scenario.lan Cases.healthy)) as (Hargparse & _ & _).
  split; [exact (proj2 (Hargparse 2)) |].
  split; reflexivity.
Defined.

(** X6.  A reply to the query that has no [result] field, as an error reply
    has, is read as an empty list: like an empty result, it makes the pass
    send no delete call, print the completion notice and return normally.
    The [error] field of the reply is never looked at. *)
Theorem query_without_result_prunes_nothing
    (int_of_str : string -> option Z) (ws : service) (dataset : option string)
    (keep : Z) (prefix : string) (t : trace) :
  Py.assoc "result" (query_reply ws dataset keep prefix t) = None \/
  Py.assoc "result" (query_reply ws dataset keep prefix t) = Some (JArr []) ->
  prune_snapshots int_of_str ws dataset keep prefix t
  = (Ret tt,
     t ++ prune_header dataset keep prefix ++ [Print [JStr "Prune completed."]]).
Proof.
  intros Hreply. rewrite prune_snapshots_run. cbv zeta.
  assert (Hresult : query_result ws dataset keep prefix t = JArr []).
  { unfold query_result, Py.get. destruct Hreply as [-> | ->]; reflexivity. }
  assert (Hnone : doomed (Py.sort_desc created []) keep = []).
  { unfold doomed, Py.slice_from. simpl Py.sort_desc.
    destruct (keep <? 0); apply skipn_nil. }
  rewrite Hresult. cbn [Py.iter select]. rewrite Hnone.
  cbn [delete_events List.app]. rewrite <- app_assoc. reflexivity.
Qed.

Lemma query_without_result_prunes_nothing_witness :
  Py.has_key "error" (query_reply Cases.blind Scenario.tank 2 "backup-" []) = true /\
  prune_snapshots Decimal.parse Cases.blind Scenario.tank 2 "backup-" []
  = (Ret tt,
     prune_header Scenario.tank 2 "backup-" ++ [Print [JStr "Prune completed."]]).
Proof.
  split; [reflexivity |].
  refine (query_without_result_prunes_nothing Decimal.parse Cases.blind
            Scenario.tank 2 "backup-" [] (or_introl eq_refl)).
Defined.

(** X7.  No delete call is sent before the whole query result has been read:
    when the result cannot be iterated, or the first loop raises on any of
    its records, the pass ends with that exception having sent its query and
    nothing else, whatever [keep] is and however many records the loop had
    already taken into its list. *)
Theorem reading_failure_deletes_nothing
    (int_of_str : string -> option Z) (ws : service) (dataset : option string)
    (keep : Z) (prefix : string) (t : trace) (e : exn) :
  Py.iter (query_result ws dataset keep prefix t) = Err e \/
  (exists snaps,
     Py.iter (query_result ws dataset keep prefix t) = Ok snaps /\
     select int_of_str prefix snaps [] = Err e) ->
  prune_snapshots int_of_str ws dataset keep prefix t
  = (Raise e, t ++ prune_header dataset keep prefix) /\
  sent (snd (prune_snapshots int_of_str ws dataset keep prefix t))
  = sent t ++ [envelope "pool.snapshot.query"
                 (Some (query_params dataset)) 3].
Proof.
  intros Hfail.
  assert (Hrun : prune_snapshots int_of_str ws dataset keep prefix t
                 = (Raise e, t ++ prune_header dataset keep prefix)).
  { rewrite prune_snapshots_run. cbv zeta.
    destruct Hfail as [Hiter | (snaps & Hiter & Hsel)].
    - rewrite Hiter. reflexivity.
    - rewrite Hiter, Hsel. reflexivity. }
  split; [exact Hrun |].
  rewrite Hrun. cbn [snd]. rewrite sent_app. reflexivity.
Qed.

Lemma reading_failure_deletes_nothing_witness :
  prune_snapshots Decimal.parse
    (Scenario.nas (Scenario.record "backup-B" "300" :: [Cases.undated]))
    Scenario.tank 0 "backup-" []
  = (Raise ValueError, prune_header Scenario.tank 0 "backup-") /\
  prune_snapshots Decimal.parse
    (Cases.scripted Cases.accepted Cases.created_reply [("result", JNull)]
       Cases.accepted)
    Scenario.tank 0 "backup-" []
  = (Raise TypeError, prune_header Scenario.tank 0 "backup-").
Proof.
  split.
  - refine (proj1 (reading_failure_deletes_nothing Decimal.parse
                     (Scenario.nas (Scenario.record "backup-B" "300"
                                    :: [Cases.undated]))
                     Scenario.tank 0 "backup-" [] ValueError
                     (or_intror (ex_intro _
                        (Scenario.record "backup-B" "300" :: [Cases.undated])
                        (conj eq_refl eq_refl))))).
  - refine (proj1 (reading_failure_deletes_nothing Decimal.parse
                     (Cases.scripted Cases.accepted Cases.created_reply
                        [("result", JNull)] Cases.accepted)
                     Scenario.tank 0 "backup-" [] TypeError
                     (or_introl eq_refl))).
Defined.

(** X8.  Of a record with another prefix the first loop reads the name and
    nothing else: on a query result whose records all have a name with an
    [@], the loop gives what it gives on the records with the prefix alone,
    so a missing or malformed [properties] or [id] of another record can
    neither stop the pass nor change it. *)
Theorem select_reads_only_matching_records
    (int_of_str : string -> option Z) (prefix : string) (snaps : list json)
    (acc : list entry) :
  Forall (fun snap => exists short, shortname_of snap = Ok short) snaps ->
  select int_of_str prefix snaps acc
  = select int_of_str prefix (filter (matches prefix) snaps) acc.
Proof.
  intros Hnames. revert acc.
  induction Hnames as [| snap rest [short Hshort] _ IH]; intros acc;
    [reflexivity |].
  rewrite select_cons. cbn [filter]. unfold matches at 1.
  rewrite Hshort.
  destruct (Py.startswith short prefix) eqn:Hstart; [| apply IH].
  rewrite select_cons, Hshort, Hstart.
  destruct (created_of int_of_str snap); [| reflexivity].
  destruct (Py.subscript snap "id"); [apply IH | reflexivity].
Qed.

Lemma select_reads_only_matching_records_witness :
  select Decimal.parse "backup-"
    [Scenario.record "backup-A" "100"; Cases.bare;
     Scenario.record "backup-B" "300"] []
  = Ok [Scenario.A; Scenario.B].
Proof.
  rewrite (select_reads_only_matching_records Decimal.parse "backup-"
             [Scenario.record "backup-A" "100"; Cases.bare;
              Scenario.record "backup-B" "300"] []).
  - reflexivity.
  - repeat constructor; eexists; reflexivity.
Defined.

(** X9.  A record with the prefix whose [rawvalue] is a string that [int()]
    rejects stops the pass with [ValueError], also after earlier records were
    taken into the list: the pass has then sent its query and deletes
    nothing. *)
Theorem unreadable_creation_time_aborts
    (int_of_str : string -> option Z) (ws : service) (dataset : option string)
    (keep : Z) (prefix : string) (t : trace)
    (pre post : list json) (acc : list entry)
    (items properties creation : list (string * json)) (short raw : string) :
  Py.iter (query_result ws dataset keep prefix t)
  = Ok (pre ++ JObj items :: post) ->
  select int_of_str prefix pre [] = Ok acc ->
  shortname_of (JObj items) = Ok short ->
  Py.startswith short prefix = true ->
  Py.assoc "properties" items = Some (JObj properties) ->
  Py.assoc "creation" properties = Some (JObj creation) ->
  Py.assoc "rawvalue" creation = Some (JStr raw) ->
  int_of_str raw = None ->
  prune_snapshots int_of_str ws dataset keep prefix t
  = (Raise ValueError, t ++ prune_header dataset keep prefix).
Proof.
  intros Hiter Hpre Hshort Hstart Hprops Hcreation Hraw Hint.
  rewrite prune_snapshots_run. cbv zeta.
  rewrite Hiter, select_app, Hpre. cbn [rbind].
  rewrite select_cons, Hshort, Hstart.
  assert (Htime : created_of int_of_str (JObj items) = Err ValueError).
  { unfold created_of, Py.subscript. rewrite Hprops. cbn [rbind].
    rewrite Hcreation. cbn [rbind]. rewrite Hraw. cbn [rbind py_int].
    rewrite Hint. reflexivity. }
  rewrite Htime. reflexivity.
Qed.

Lemma unreadable_creation_time_aborts_witness :
  prune_snapshots Decimal.parse
    (Scenario.nas (Scenario.record "backup-B" "300" :: [Cases.undated]))
    Scenario.tank 0 "backup-" []
  = (Raise ValueError, prune_header Scenario.tank 0 "backup-").
Proof.
  refine (unreadable_creation_time_aborts Decimal.parse
            (Scenario.nas (Scenario.record "backup-B" "300" :: [Cases.undated]))
            Scenario.tank 0 "backup-" [] [Scenario.record "backup-B" "300"] []
            [Scenario.B]
            [ ("id", JStr "tank/data@backup-Z");
              ("name", JStr "tank/data@backup-Z");
              ("properties",
               JObj [("creation", JObj [("rawvalue", JStr "yesterday")])]) ]
            [("creation", JObj [("rawvalue", JStr "yesterday")])]
            [("rawvalue", JStr "yesterday")]
            "backup-Z" "yesterday"
            eq_refl eq_refl eq_refl eq_refl eq_refl eq_refl eq_refl eq_refl).
Defined.

Lemma slice_from_length {A} (l : list A) (k : Z) :
  Z.of_nat (List.length (Py.slice_from l k))
  = if k <? 0 then Z.min (- k) (Z.of_nat (List.length l))
    else Z.max 0 (Z.of_nat (List.length l) - k).
Proof.
  unfold Py.slice_from.
  destruct (Z.ltb_spec k 0); rewrite length_skipn; lia.
Qed.

(** X10.  How many snapshots a pass deletes, for [n] matching records: with
    [keep >= 0] it sends [max(0, n - keep)] delete calls; with [keep < 0] the
    cut counts from the end and it sends [min(-keep, n)] of them, for the
    oldest entries. *)
Theorem number_of_delete_calls
    (int_of_str : string -> option Z) (ws : service) (dataset : option string)
    (keep : Z) (prefix : string) (t : trace)
    (snaps : list json) (filtered : list entry) :
  Py.iter (query_result ws dataset keep prefix t) = Ok snaps ->
  select int_of_str prefix snaps [] = Ok filtered ->
  let n := Z.of_nat (List.length filtered) in
  let to_delete := doomed (Py.sort_desc created filtered) keep in
  sent (snd (prune_snapshots int_of_str ws dataset keep prefix t))
  = sent t
    ++ envelope "pool.snapshot.query" (Some (query_params dataset)) 3
       :: delete_calls to_delete 10 /\
  Z.of_nat (List.length (delete_calls to_delete 10))
  = (if keep <? 0 then Z.min (- keep) n else Z.max 0 (n - keep)).
Proof.
  intros Hiter Hsel n to_delete. split.
  - rewrite prune_snapshots_run. cbv zeta. rewrite Hiter, Hsel. cbn [snd].
    rewrite (sent_app (t ++ _)), (sent_app (delete_events _ _)),
      sent_delete_events, sent_app.
    simpl. rewrite app_nil_r, <- app_assoc. reflexivity.
  - rewrite delete_calls_length. unfold to_delete, doomed.
    rewrite slice_from_length.
    rewrite <- (Permutation_length (sort_desc_perm created filtered)).
    reflexivity.
Qed.

Lemma number_of_delete_calls_witness :
  Z.of_nat (List.length
              (delete_calls
                 (doomed (Py.sort_desc created
                            [Scenario.A; Scenario.B; Scenario.D]) (-2)) 10))
  = 2.
Proof.
  refine (proj2 (number_of_delete_calls Decimal.parse
                   (Scenario.nas Scenario.records) Scenario.tank (-2)
                   "backup-" [] Scenario.records
                   [Scenario.A; Scenario.B; Scenario.D] eq_refl eq_refl)).
Defined.

Lemma sorted_app_cross {A} (R : A -> A -> Prop) (l1 l2 : list A) (x y : A) :
  StronglySorted R (l1 ++ l2) -> In x l1 -> In y l2 -> R x y.
Proof.
  induction l1 as [| z l1 IH]; simpl; intros Hsorted Hx Hy; [contradiction |].
  inversion Hsorted as [| ? ? Hrest Hall]; subst.
  destruct Hx as [-> | Hx].
  - rewrite Forall_forall in Hall. apply Hall, in_or_app. right. exact Hy.
  - apply IH; assumption.
Qed.

(** X11.  Whatever [keep] is, negative or not, the pass never deletes a
    snapshot that is newer than one it keeps: every retained entry was
    created no earlier than every doomed entry. *)
Theorem doomed_are_never_newer_than_retained
    (filtered : list entry) (keep : Z) (kept gone : entry) :
  let sorted := Py.sort_desc created filtered in
  In kept (retained sorted keep) ->
  In gone (doomed sorted keep) ->
  created gone <= created kept.
Proof.
  intros sorted Hkept Hgone.
  pose proof (sort_desc_sorted created filtered) as Hsorted.
  fold sorted in Hsorted.
  rewrite <- (slice_split sorted keep) in Hsorted.
  exact (sorted_app_cross _ _ _ _ _ Hsorted Hkept Hgone).
Qed.

Lemma doomed_are_never_newer_than_retained_witness :
  created Scenario.A <= created Scenario.D.
Proof.
  refine (doomed_are_never_newer_than_retained
            [Scenario.A; Scenario.B; Scenario.D] (-1) Scenario.D Scenario.A
            _ _).
  - right; left; reflexivity.
  - left; reflexivity.
Defined.

(** ** The order of the query result *)

Lemma select_step (int_of_str : string -> option Z) (prefix : string)
    (snap : json) (rest : list json) :
  select int_of_str prefix (snap :: rest) []
  = match picked int_of_str prefix snap with
    | Err e => Err e
    | Ok None => select int_of_str prefix rest []
    | Ok (Some x) =>
        rbind (select int_of_str prefix rest []) (fun new => Ok (x :: new))
    end.
Proof.
  rewrite select_cons. unfold picked.
  destruct (shortname_of snap) as [short | e]; cbn [rbind]; [| reflexivity].
  destruct (Py.startswith short prefix); [| reflexivity].
  destruct (created_of int_of_str snap) as [time | e]; cbn [rbind];
    [| reflexivity].
  destruct (Py.subscript snap "id") as [ident | e]; cbn [rbind];
    [| reflexivity].
  apply select_acc.
Qed.

Lemma select_perm (int_of_str : string -> option Z) (prefix : string)
    (snaps snaps' : list json) :
  Permutation snaps snaps' ->
  forall filtered,
    select int_of_str prefix snaps [] = Ok filtered ->
    exists filtered',
      select int_of_str prefix snaps' [] = Ok filtered' /\
      Permutation filtered filtered'.
Proof.
  induction 1 as [| x l l' _ IH | x y l | l1 l2 l3 _ IH1 _ IH2];
    intros filtered Hsel.
  - exists filtered. split; [exact Hsel | reflexivity].
  - rewrite select_step in Hsel. rewrite select_step.
    destruct (picked int_of_str prefix x) as [[e |] | e]; [| | discriminate].
    + destruct (select int_of_str prefix l []) as [new | e2];
        [| discriminate].
      injection Hsel as <-.
      destruct (IH new eq_refl) as (new' & -> & Hperm).
      exists (e :: new'). split; [reflexivity | apply perm_skip, Hperm].
    + apply IH, Hsel.
  - rewrite !select_step in Hsel. rewrite !select_step.
    destruct (picked int_of_str prefix x) as [[ex |] | e];
      destruct (picked int_of_str prefix y) as [[ey |] | e2];
      try discriminate;
      destruct (select int_of_str prefix l []) as [new | e3];
      try discriminate; cbn [rbind] in *; injection Hsel as <-;
      eexists; (split; [reflexivity |]);
      try reflexivity.
    apply perm_swap.
  - destruct (IH1 _ Hsel) as (mid & Hmid & Hperm1).
    destruct (IH2 _ Hmid) as (filtered' & Hsel' & Hperm2).
    exists filtered'. split; [exact Hsel' |].
    etransitivity; eassumption.
Qed.

Lemma sorted_perm_unique {A} (R : A -> A -> Prop) (l l' : list A) :
  StronglySorted R l -> StronglySorted R l' -> Permutation l l' ->
  (forall x y, In x l -> In y l -> R x y -> R y x -> x = y) ->
  l = l'.
Proof.
  intros Hl. revert l'.
  induction Hl as [| x xs Hxs IH Hx]; intros l' Hl' Hperm Hanti.
  - apply Permutation_nil in Hperm. symmetry. exact Hperm.
  - destruct l' as [| y ys];
      [apply Permutation_sym, Permutation_nil in Hperm; discriminate |].
    inversion Hl' as [| ? ? Hys Hy]; subst.
    rewrite Forall_forall in Hx, Hy.
    assert (Hxy : x = y).
    { assert (Hin_x : In x (y :: ys))
        by (apply (Permutation_in _ Hperm); left; reflexivity).
      assert (Hin_y : In y (x :: xs))
        by (apply (Permutation_in _ (Permutation_sym Hperm)); left; reflexivity).
      destruct Hin_x as [Heq | Hin_x]; [symmetry; exact Heq |].
      destruct Hin_y as [Heq | Hin_y]; [exact Heq |].
      apply Hanti; [left; reflexivity | right; exact Hin_y | |].
      - apply Hx, Hin_y.
      - apply Hy, Hin_x. }
    subst y. f_equal.
    apply IH; [exact Hys | eapply Permutation_cons_inv; exact Hperm |].
    intros a b Ha Hb. apply Hanti; right; assumption.
Qed.

Lemma NoDup_map_injective_on {A B} (f : A -> B) (l : list A) (x y : A) :
  NoDup (map f l) -> In x l -> In y l -> f x = f y -> x = y.
Proof.
  induction l as [| z l IH]; simpl; intros Hnd Hx Hy Heq; [contradiction |].
  inversion Hnd as [| ? ? Hnotin Hrest]; subst.
  destruct Hx as [-> | Hx], Hy as [-> | Hy].
  - reflexivity.
  - exfalso. apply Hnotin. rewrite Heq. apply in_map, Hy.
  - exfalso. apply Hnotin. rewrite <- Heq. apply in_map, Hx.
  - apply IH; assumption.
Qed.

(** X12.  The order in which the service returns the records is a hint only:
    when the matching records have pairwise different creation times, a
    query result with the same records in any other order leads to the same
    sorted list, hence to the same delete calls in the same order. *)
Theorem query_order_does_not_matter
    (int_of_str : string -> option Z) (prefix : string)
    (snaps snaps' : list json) (filtered : list entry) (keep : Z) :
  Permutation snaps snaps' ->
  select int_of_str prefix snaps [] = Ok filtered ->
  NoDup (map created filtered) ->
  exists filtered',
    select int_of_str prefix snaps' [] = Ok filtered' /\
    Py.sort_desc created filtered' = Py.sort_desc created filtered /\
    delete_calls (doomed (Py.sort_desc created filtered') keep) 10
    = delete_calls (doomed (Py.sort_desc created filtered) keep) 10.
Proof.
  intros Hperm Hsel Hdistinct.
  destruct (select_perm _ _ _ _ Hperm _ Hsel) as (filtered' & Hsel' & Hp).
  exists filtered'. split; [exact Hsel' |].
  assert (Hsame : Py.sort_desc created filtered'
                  = Py.sort_desc created filtered).
  { apply (sorted_perm_unique (descending created)).
    - apply sort_desc_sorted.
    - apply sort_desc_sorted.
    - rewrite <- !sort_desc_perm. symmetry. exact Hp.
    - intros x y Hx Hy Hxy Hyx.
      assert (Hdistinct' : NoDup (map created filtered')).
      { eapply Permutation_NoDup; [| exact Hdistinct].
        apply Permutation_map, Hp. }
      apply (NoDup_map_injective_on created filtered' x y Hdistinct').
      + eapply Permutation_in; [symmetry; apply sort_desc_perm | exact Hx].
      + eapply Permutation_in; [symmetry; apply sort_desc_perm | exact Hy].
      + unfold descending in *. lia. }
  split; [exact Hsame | rewrite Hsame; reflexivity].
Qed.

Lemma query_order_does_not_matter_witness :
  exists filtered',
    select Decimal.parse "backup-" (rev Scenario.records) [] = Ok filtered' /\
    Py.sort_desc created filtered'
    = Py.sort_desc created [Scenario.A; Scenario.B; Scenario.D] /\
    delete_calls (doomed (Py.sort_desc created filtered') 2) 10
    = delete_calls
        (doomed (Py.sort_desc created [Scenario.A; Scenario.B; Scenario.D]) 2)
        10.
Proof.
  refine (query_order_does_not_matter Decimal.parse "backup-" Scenario.records
            (rev Scenario.records) [Scenario.A; Scenario.B; Scenario.D] 2
            (Permutation_rev _) eq_refl _).
  repeat constructor; simpl; intuition discriminate.
Defined.

(** ** Names and prefixes *)

Lemma split_pieces_clean (c : ascii) (s : string) :
  Forall (fun piece => Text.contains c piece = false) (Py.split c s).
Proof.
  induction s as [| x s IH]; simpl.
  - repeat constructor.
  - destruct (Ascii.eqb x c) eqn:Hx.
    + constructor; [reflexivity | exact IH].
    + destruct (Py.split c s) as [| piece pieces].
      * constructor; [simpl; rewrite Hx; reflexivity | constructor].
      * inversion IH as [| ? ? Hpiece Hpieces]; subst.
        constructor; [simpl; rewrite Hx; exact Hpiece | exact Hpieces].
Qed.

Lemma after_first_app (c : ascii) (front rest : string) :
  Text.contains c front = false ->
  Text.after_first c (front ++ String c rest)%string = Some rest.
Proof.
  induction front as [| x front IH]; simpl; intros Hfront.
  - rewrite Ascii.eqb_refl. reflexivity.
  - destruct (Ascii.eqb x c); [discriminate | apply IH, Hfront].
Qed.

(** X13.  A shortname the pass derives never contains an [@]: it is one piece
    of the split name, so it is what the "Deleting:" line shows and what the
    prefix is tested on, even for a name with several [@]. *)
Theorem shortname_has_no_at (snap : json) (short : string) :
  shortname_of snap = Ok short -> Text.contains "@" short = false.
Proof.
  unfold shortname_of.
  destruct (Py.subscript snap "name") as [full | e]; cbn [rbind];
    [| discriminate].
  destruct full as [| | | s | |]; cbn [Py.split_at rbind]; try discriminate.
  unfold Py.index.
  destruct (nth_error (Py.split "@" s) 1) as [piece |] eqn:Hnth;
    [| discriminate].
  intros [= <-].
  pose proof (split_pieces_clean "@" s) as Hclean.
  rewrite Forall_forall in Hclean.
  apply Hclean. eapply nth_error_In. exact Hnth.
Qed.

Lemma shortname_has_no_at_witness :
  Text.contains "@" "backup-1" = false.
Proof.
  refine (shortname_has_no_at (JObj Scenario.two_ats) "backup-1" eq_refl).
Defined.

(** X14.  The pass never compares the dataset in a record's name with the
    dataset it asked for: two records whose names differ only before the
    first [@] get the same shortname and the same verdict on the prefix.
    That the records belong to the dataset rests on the filter of the query
    alone. *)
Theorem dataset_part_is_not_checked
    (prefix : string) (items items' : list (string * json))
    (front front' rest : string) :
  Py.assoc "name" items = Some (JStr (front ++ String "@" rest)%string) ->
  Py.assoc "name" items' = Some (JStr (front' ++ String "@" rest)%string) ->
  Text.contains "@" front = false ->
  Text.contains "@" front' = false ->
  shortname_of (JObj items) = Ok (Text.before_first "@" rest) /\
  shortname_of (JObj items') = shortname_of (JObj items) /\
  matches prefix (JObj items') = matches prefix (JObj items).
Proof.
  intros Hname Hname' Hfront Hfront'.
  assert (Hshort : shortname_of (JObj items) = Ok (Text.before_first "@" rest)).
  { rewrite (shortname_of_name _ _ Hname), after_first_app by exact Hfront.
    reflexivity. }
  assert (Hshort' : shortname_of (JObj items')
                    = Ok (Text.before_first "@" rest)).
  { rewrite (shortname_of_name _ _ Hname'), after_first_app by exact Hfront'.
    reflexivity. }
  split; [exact Hshort |]. split; [congruence |].
  unfold matches. rewrite Hshort, Hshort'. reflexivity.
Qed.

Lemma dataset_part_is_not_checked_witness :
  matches "backup-" (JObj [("name", JStr "other/pool@backup-A")])
  = matches "backup-" (JObj [("name", JStr "tank/data@backup-A")]).
Proof.
  refine (proj2 (proj2 (dataset_part_is_not_checked "backup-"
                          [("name", JStr "tank/data@backup-A")]
                          [("name", JStr "other/pool@backup-A")]
                          "tank/data" "other/pool" "backup-A"
                          eq_refl eq_refl eq_refl eq_refl))).
Defined.

(** X15.  With the empty prefix every record is a candidate: when the first
    loop finishes, its list has one entry for each record of the query
    result, so [--prefix ""] lets the pass delete any snapshot the query
    returns. *)
Theorem empty_prefix_selects_every_record
    (int_of_str : string -> option Z) (snaps : list json)
    (filtered : list entry) :
  select int_of_str "" snaps [] = Ok filtered ->
  List.length filtered = List.length snaps /\
  filter (matches "") snaps = snaps.
Proof.
  revert filtered. induction snaps as [| snap rest IH]; intros filtered.
  - simpl. intros [= <-]. split; reflexivity.
  - rewrite select_cons. cbn [filter]. unfold matches at 1.
    destruct (shortname_of snap) as [short | e]; [| discriminate].
    replace (Py.startswith short "") with true
      by (unfold Py.startswith; destruct short; reflexivity).
    destruct (created_of int_of_str snap) as [time | e]; [| discriminate].
    destruct (Py.subscript snap "id") as [ident | e]; [| discriminate].
    rewrite select_acc.
    destruct (select int_of_str "" rest []) as [new | e]; [| discriminate].
    cbn [rbind]. intros [= <-].
    destruct (IH new eq_refl) as [Hlen Hall].
    split; [simpl; rewrite Hlen; reflexivity | rewrite Hall; reflexivity].
Qed.

Lemma empty_prefix_selects_every_record_witness :
  List.length
    [Scenario.A; Scenario.B; Scenario.entry_of "other-C" 500; Scenario.D]
  = List.length Scenario.records.
Proof.
  refine (proj1 (empty_prefix_selects_every_record Decimal.parse
                   Scenario.records
                   [Scenario.A; Scenario.B; Scenario.entry_of "other-C" 500;
                    Scenario.D] eq_refl)).
Defined.
